(** * Crescent-Engine: scripts/encode_textures.py

    A shallow embedding of the incremental texture encoder
    (find stale textures, build the basisu command line, run it, count)
    and the properties of its specification.

    Layout of the development:
    - [result]: Python exceptions as an error monad;
    - [json]: the values [json.loads] produces, with Python truthiness;
    - [Pathlib]: the part of [pathlib.PurePosixPath] the script uses;
    - [Runtime]: the interface to the file system and to the encoder process;
    - the script's functions, in source order;
    - the properties. *)

From Stdlib Require Import ZArith Ascii String List Lia.
From stdpp Require Import gmap strings pretty.

Set Warnings "-register-all".

(** ** Exceptions *)

(** The exceptions that can leave the script's calls into the standard
    library.  [JSONDecodeError] is the only one the script catches. *)
Inductive exn : Type :=
  | JSONDecodeError
  | UnicodeDecodeError
  | AttributeError
  | ValueError
  | OSError.

Inductive result (A : Type) : Type :=
  | Ok (a : A)
  | Raise (e : exn).
Arguments Ok {A} a.
Arguments Raise {A} e.

Definition bind {A B : Type} (r : result A) (k : A -> result B) : result B :=
  match r with
  | Ok a => k a
  | Raise e => Raise e
  end.

Declare Scope py_scope.
Delimit Scope py_scope with py.
Notation "x <- r ;; k" := (bind r (fun x => k))
  (at level 100, r at next level, right associativity) : py_scope.
Local Open Scope py_scope.

(** ** JSON values *)

(** What [json.loads] returns.  [JNull] is Python's [None]; a dict has
    unique keys and is a finite map; a float is carried by its [repr],
    the only thing the script can observe of it besides being zero. *)
Inductive json : Type :=
  | JNull
  | JBool (b : bool)
  | JInt (z : Z)
  | JFloat (repr : string)
  | JStr (s : string)
  | JArr (items : list json)
  | JObj (fields : gmap string json).

(** [bool(v)], also the test of [not v] and [v or d]. *)
Definition truthy (v : json) : bool :=
  match v with
  | JNull => false
  | JBool b => b
  | JInt z => negb (z =? 0)%Z
  | JFloat r => negb (String.eqb r "0.0" || String.eqb r "-0.0")
  | JStr s => negb (String.eqb s "")
  | JArr items => match items with [] => false | _ :: _ => true end
  | JObj fields => negb (bool_decide (fields = ∅))
  end.

(** [v or d] *)
Definition py_or (v d : json) : json := if truthy v then v else d.

(** [v.get(key, default)]: only a dict has [get]. *)
Definition py_get (v : json) (key : string) (default : json) : result json :=
  match v with
  | JObj fields => Ok (match fields !! key with Some x => x | None => default end)
  | _ => Raise AttributeError
  end.

(** [v != "texture"] for a value [v] and a string: only the same string
    compares equal. *)
Definition py_ne_str (v : json) (s : string) : bool :=
  match v with
  | JStr t => negb (String.eqb t s)
  | _ => true
  end.

(** ** Strings *)

Module PyStr.

(** [s[-1]], when there is one *)
Fixpoint last_char (s : string) : option ascii :=
  match s with
  | EmptyString => None
  | String c EmptyString => Some c
  | String _ s' => last_char s'
  end.

(** [s[i:]] *)
Fixpoint drop (i : nat) (s : string) : string :=
  match i, s with
  | O, _ => s
  | S i', String _ s' => drop i' s'
  | S _, EmptyString => EmptyString
  end.

(** [s[:i]] *)
Fixpoint take (i : nat) (s : string) : string :=
  match i, s with
  | O, _ => EmptyString
  | S i', String c s' => String c (take i' s')
  | S _, EmptyString => EmptyString
  end.

(** [s.rfind(c)], with [None] for -1 *)
Fixpoint rfind (c : ascii) (s : string) : option nat :=
  match s with
  | EmptyString => None
  | String a s' =>
      match rfind c s' with
      | Some i => Some (S i)
      | None => if Ascii.eqb a c then Some O else None
      end
  end.

(** [c in s] *)
Fixpoint contains (c : ascii) (s : string) : bool :=
  match s with
  | EmptyString => false
  | String a s' => Ascii.eqb a c || contains c s'
  end.

(** [s.split(sep)] for a one-character separator *)
Fixpoint split (sep : ascii) (s : string) : list string :=
  match s with
  | EmptyString => [EmptyString]
  | String a s' =>
      if Ascii.eqb a sep then EmptyString :: split sep s'
      else match split sep s' with
           | seg :: segs => String a seg :: segs
           | [] => [String a EmptyString]
           end
  end.

(** [sep.join(l)] *)
Fixpoint join (sep : string) (l : list string) : string :=
  match l with
  | [] => EmptyString
  | [x] => x
  | x :: l' => x +:+ sep +:+ join sep l'
  end.

Definition lower_char (c : ascii) : ascii :=
  let n := nat_of_ascii c in
  if (65 <=? n)%nat && (n <=? 90)%nat then ascii_of_nat (n + 32) else c.

(** [s.lower()].  Bytes outside ASCII are left alone: no character
    outside ASCII lowers to a letter of an extension in [LDR_EXTS], so
    membership of [suffix.lower()] in that set is decided alike. *)
Fixpoint lower (s : string) : string :=
  match s with
  | EmptyString => EmptyString
  | String c s' => String (lower_char c) (lower s')
  end.

End PyStr.

(** ** pathlib *)

Module Pathlib.

(** A [PurePosixPath] after parsing: the root (empty, one slash or
    two) and the components.  The drive is always empty on POSIX. *)
Record Path : Type := mkPath { root : string; parts : list string }.

Definition slash : ascii := "/"%char.
Definition dot : ascii := "."%char.

(** [posixpath.splitroot]: exactly two leading slashes are kept, three
    or more collapse to one. *)
Definition splitroot (s : string) : string * string :=
  match s with
  | String c1 r1 =>
      if negb (Ascii.eqb c1 slash) then ("", s)
      else
        match r1 with
        | String c2 r2 =>
            if negb (Ascii.eqb c2 slash) then ("/", r1)
            else
              match r2 with
              | String c3 _ => if Ascii.eqb c3 slash then ("/", r1) else ("//", r2)
              | EmptyString => ("//", r2)
              end
        | EmptyString => ("/", r1)
        end
  | EmptyString => ("", s)
  end.

(** the components kept by the parser: neither empty nor [.] *)
Definition kept (x : string) : bool :=
  negb (String.eqb x "") && negb (String.eqb x ".").

(** [PurePosixPath(s)] *)
Definition parse (s : string) : Path :=
  let '(r, rel) := splitroot s in
  mkPath r (List.filter kept (PyStr.split slash rel)).

(** [p / s]: an absolute right operand replaces the left one. *)
Definition truediv (p : Path) (s : string) : Path :=
  let q := parse s in
  if String.eqb (root q) "" then mkPath (root p) (parts p ++ parts q) else q.

(** [str(p)] *)
Definition str (p : Path) : string :=
  let s := root p +:+ PyStr.join "/" (parts p) in
  if String.eqb s "" then "." else s.

(** [p.name] *)
Definition name (p : Path) : string := List.last (parts p) "".

(** the suffix of a file name: from its last dot, unless that dot is
    the first or the last character (a trailing dot is a suffix of its own
    from Python 3.14 on, which no extension of [LDR_EXTS] is) *)
Definition name_suffix (n : string) : string :=
  match PyStr.rfind dot n with
  | Some i =>
      if (0 <? i)%nat && (i <? String.length n - 1)%nat then PyStr.drop i n else ""
  | None => ""
  end.

(** [p.suffix] *)
Definition suffix (p : Path) : string := name_suffix (name p).

(** [p.with_suffix("")]: a path without a name has none to change. *)
Definition with_suffix_empty (p : Path) : result Path :=
  let n := name p in
  if String.eqb n "" then Raise ValueError
  else
    let old := name_suffix n in
    let n' := PyStr.take (String.length n - String.length old) n in
    Ok (mkPath (root p) (removelast (parts p) ++ [n'])).

End Pathlib.
Import Pathlib.

(** ** The script's environment *)

(** [subprocess.CompletedProcess], with the two fields the script reads *)
Record CompletedProcess : Type := mkCompleted { returncode : Z; stderr : string }.

(** What the script takes from its runtime, over a state [W] of the
    mutable world (the cache directory, the assets' time stamps, whatever
    the encoder depends on).
    - [os_exists] is [Path.exists]: it calls [stat] and answers false when
      that fails with [ENOENT], [ENOTDIR], [EBADF] or [ELOOP]; any other
      [OSError] of [stat] (a name that is too long, a directory that may
      not be searched) leaves [exists] as it is, so the answer is a boolean
      or that exception.  [os_mtime] is [os.stat(..).st_mtime], [None]
      standing for [OSError]; both take the path as a string, as the system
      calls do.  A time stamp is a finite float of which the script uses
      the order only, so an integer stands for it.  The two queries are
      independent observations: a file seen by one can be gone for the
      next.
    - [subprocess_run] is [subprocess.run(cmd, ...)]: the encoder is an
      opaque process that answers with an exit status and its standard
      error, and leaves the world in a new state; spawning can itself raise.
    - [container_str] is [str] of a list or dict (Python's container
      formatting), reached only when a guid is a JSON array or object. *)
Class Runtime (W : Type) : Type := {
  os_exists : W -> string -> result bool;
  os_mtime : W -> string -> option Z;
  subprocess_run : list string -> W -> result (CompletedProcess * W);
  container_str : json -> string
}.

(** The source tree as one run finds it.  The pipeline only reads it, so
    it is kept apart from [W]:
    - [dir_exists d] is [d.exists()] for an asset directory, a boolean or
      the [OSError] that [exists] lets through;
    - [rglob_cmeta d] lists what [d.rglob("*.cmeta")] yields, in the order
      of iteration; the generator walks the directory while the loop runs,
      and [rglob_raises d] is the exception that ends the walk after the
      last file it yielded, [None] when the walk comes to its end;
    - [read_json p] is [json.loads(p.read_text(encoding="utf-8"))]: the parsed
      value or the exception of the read ([OSError]), of the decoding
      ([UnicodeDecodeError]) or of the parser ([JSONDecodeError]). *)
Record Tree : Type := mkTree {
  dir_exists : Path -> result bool;
  rglob_cmeta : Path -> list Path;
  rglob_raises : Path -> option exn;
  read_json : Path -> result json
}.

(** The values lines 83-99 of [main] resolve before the scan, from the
    command line and the project file: the asset directories, the library
    directory and the encoder binary. *)
Record Config : Type := mkConfig {
  assets_dirs : list Path;
  library_dir : Path;
  basisu : Path
}.

(** [main], line 96 *)
Definition cache_dir (cfg : Config) : Path := truediv (library_dir cfg) "ImportCache".

(** What an observer of a run sees, in order. *)
Inductive event : Type :=
  | Spawn (cmd : list string) (cp : CompletedProcess)
  | PrintErr (text : string)
  | PrintOut (text : string).

Definition is_spawn (e : event) : bool :=
  match e with Spawn _ _ => true | _ => false end.

(** ** The script *)

Definition LDR_EXTS : gset string :=
  {[ ".png"; ".jpg"; ".jpeg"; ".tga"; ".bmp"; ".gif"; ".tif"; ".tiff" ]}.

Definition nl : string := String "010"%char "".

(** [build_command], lines 50-79: the list is built by the same three
    steps, [str] applied to the three paths. *)
Definition build_command (basisu asset_path output_path : Path)
    (srgb normal_map flip_y generate_mips : bool) : list string :=
  let cmd := [ str basisu; "-ktx2"; "-ktx2_no_zstandard";
               if normal_map then "-uastc" else "-etc1s";
               if srgb then "-srgb" else "-linear" ] in
  let cmd := if flip_y then cmd ++ ["-y_flip"] else cmd in
  let cmd := if generate_mips then cmd ++ ["-mipmap"] else cmd in
  cmd ++ [ "-quality"; if normal_map then "50" else "80";
           "-effort"; "4";
           "-file"; str asset_path;
           "-output_file"; str output_path;
           "-no_status_output" ].

(** The invocation as the specification writes it:
    [<encoder> -ktx2 -ktx2_no_zstandard {mode} {colour} [-y_flip] [-mipmap]
     -quality <q> -effort 4 -file <asset> -output_file <output> -no_status_output]. *)
Definition invocation (encoder mode colour : string) (y_flip mipmap : bool)
    (quality asset output : string) : list string :=
  [encoder; "-ktx2"; "-ktx2_no_zstandard"; mode; colour]
  ++ (if y_flip then ["-y_flip"] else [])
  ++ (if mipmap then ["-mipmap"] else [])
  ++ ["-quality"; quality; "-effort"; "4"; "-file"; asset;
      "-output_file"; output; "-no_status_output"].

(** [f"{guid}"]: a string is itself, the other values print as [str]
    prints them. *)
Definition format_value `{Runtime W} (v : json) : string :=
  match v with
  | JStr s => s
  | JInt z => pretty z
  | JBool true => "True"
  | JBool false => "False"
  | JNull => "None"
  | JFloat r => r
  | JArr _ | JObj _ => container_str v
  end.

(** A record that passed the filters of lines 111-122, with the values
    lines 123-129 compute for it. *)
Record Candidate : Type := mkCandidate {
  c_guid : json;
  c_asset : Path;
  c_output : Path;
  c_srgb : bool;
  c_normal_map : bool;
  c_flip_y : bool;
  c_generate_mips : bool
}.

Section Pipeline.
Context {W : Type} `{RT : Runtime W}.

Definition path_exists (w : W) (p : Path) : result bool := os_exists w (str p).
Definition st_mtime (w : W) (p : Path) : option Z := os_mtime w (str p).

(** [should_encode], lines 41-47.  The test of line 42 is made before the
    [try]: an exception of [exists] leaves the function; one of the two
    [stat] calls is caught and answered with [True]. *)
Definition should_encode (w : W) (asset_path output_path : Path) : result bool :=
  there <- path_exists w output_path ;;
  if negb there then Ok true
  else
    match st_mtime w output_path with
    | None => Ok true
    | Some out_mtime =>
        match st_mtime w asset_path with
        | None => Ok true
        | Some asset_mtime => Ok (out_mtime <? asset_mtime)%Z
        end
    end.

(** [main], lines 123-127: the four effective settings of a record *)
Definition import_settings (meta : json) : result (bool * bool * bool * bool) :=
  imp <- py_get meta "import" JNull ;;
  tex <- py_get (py_or imp (JObj ∅)) "texture" JNull ;;
  let settings := py_or tex (JObj ∅) in
  srgb <- py_get settings "srgb" (JBool true) ;;
  normal_map <- py_get settings "normalMap" (JBool false) ;;
  flip_y <- py_get settings "flipY" (JBool false) ;;
  generate_mips <- py_get settings "generateMipmaps" (JBool true) ;;
  Ok (truthy srgb, truthy normal_map, truthy flip_y, truthy generate_mips).

(** [main], line 129 *)
Definition output_path (cache : Path) (guid : json) : Path :=
  truediv cache (format_value guid +:+ ".ktx2").

(** [main], lines 115-129, for a parsed metadata value: [None] is a
    [continue]. *)
Definition classify (cache : Path) (meta_path : Path) (meta : json)
    : result (option Candidate) :=
  ty <- py_get meta "type" JNull ;;
  if py_ne_str ty "texture" then Ok None else
  guid <- py_get meta "guid" JNull ;;
  if negb (truthy guid) then Ok None else
  asset_path <- with_suffix_empty meta_path ;;
  if negb (bool_decide (PyStr.lower (suffix asset_path) ∈ LDR_EXTS)) then Ok None else
  s <- import_settings meta ;;
  let '(srgb, normal_map, flip_y, generate_mips) := s in
  Ok (Some (mkCandidate guid asset_path (output_path cache guid)
                        srgb normal_map flip_y generate_mips)).

(** [main], lines 111-129: read, parse and filter one metadata file. *)
Definition candidate (tree : Tree) (cache : Path) (meta_path : Path)
    : result (option Candidate) :=
  match read_json tree meta_path with
  | Raise JSONDecodeError => Ok None
  | Raise e => Raise e
  | Ok meta => classify cache meta_path meta
  end.

(** [bool(settings.get(key, default))] for a settings dict *)
Definition setting (tex : gmap string json) (key : string) (default : bool) : bool :=
  match tex !! key with Some v => truthy v | None => default end.

(** The loop's variables: the two counters, the world, and what has
    been observed so far. *)
Record run_state : Type := mkState {
  encoded : nat;
  skipped : nat;
  world : W;
  trace : list event
}.

(** [main], lines 130-139 *)
Definition encode (enc : Path) (c : Candidate) (st : run_state) : result run_state :=
  stale <- should_encode (world st) (c_asset c) (c_output c) ;;
  if negb stale then
    Ok (mkState (encoded st) (S (skipped st)) (world st) (trace st))
  else
    let cmd := build_command enc (c_asset c) (c_output c)
                 (c_srgb c) (c_normal_map c) (c_flip_y c) (c_generate_mips c) in
    r <- subprocess_run cmd (world st) ;;
    let '(cp, w') := r in
    if negb (returncode cp =? 0)%Z then
      Ok (mkState (encoded st) (skipped st) w'
            (trace st ++ [ Spawn cmd cp;
                           PrintErr ("Failed: " +:+ str (c_asset c) +:+ nl +:+ stderr cp) ]))
    else
      Ok (mkState (S (encoded st)) (skipped st) w' (trace st ++ [Spawn cmd cp])).

(** One iteration of the inner loop, lines 110-139 *)
Definition process_meta (cfg : Config) (tree : Tree) (meta_path : Path)
    (st : run_state) : result run_state :=
  oc <- candidate tree (cache_dir cfg) meta_path ;;
  match oc with
  | None => Ok st
  | Some c => encode (basisu cfg) c st
  end.

(** The inner loop, line 110 *)
Fixpoint scan_metas (cfg : Config) (tree : Tree) (metas : list Path)
    (st : run_state) : result run_state :=
  match metas with
  | [] => Ok st
  | meta_path :: rest =>
      st' <- process_meta cfg tree meta_path st ;;
      scan_metas cfg tree rest st'
  end.

(** The outer loop, lines 107-110: the files a directory yields are
    processed as they come, then the walk ends or raises. *)
Fixpoint scan_dirs (cfg : Config) (tree : Tree) (dirs : list Path)
    (st : run_state) : result run_state :=
  match dirs with
  | [] => Ok st
  | assets_dir :: rest =>
      there <- dir_exists tree assets_dir ;;
      if negb there then scan_dirs cfg tree rest st
      else
        st' <- scan_metas cfg tree (rglob_cmeta tree assets_dir) st ;;
        match rglob_raises tree assets_dir with
        | Some e => Raise e
        | None => scan_dirs cfg tree rest st'
        end
  end.

Definition summary (st : run_state) : string :=
  "Encoded " +:+ pretty (encoded st) +:+ " texture(s), skipped "
    +:+ pretty (skipped st) +:+ ".".

(** [main], lines 100-142: the exit status and the final state, or the
    exception that ends the run. *)
Definition main (cfg : Config) (tree : Tree) (w : W) : result (Z * run_state) :=
  there <- path_exists w (basisu cfg) ;;
  if negb there then
    Ok (1%Z, mkState 0 0 w [PrintErr ("basisu binary not found: " +:+ str (basisu cfg))])
  else
    st <- scan_dirs cfg tree (assets_dirs cfg) (mkState 0 0 w []) ;;
    Ok (0%Z, mkState (encoded st) (skipped st) (world st)
               (trace st ++ [PrintOut (summary st)])).

End Pipeline.

(** ** Vocabulary of the properties *)

Section Vocabulary.
Context {W : Type} `{RT : Runtime W}.

(** The metadata files of the asset directories that are there, in the
    order of the two loops (lines 107-110): what a run visits when no
    exception stops it. *)
Definition discovered (cfg : Config) (tree : Tree) : list Path :=
  flat_map (fun d => match dir_exists tree d with
                     | Ok true => rglob_cmeta tree d
                     | _ => []
                     end)
           (assets_dirs cfg).

(** Lines 108 and 110 raise nothing for the directory [d]: the check
    returns and, when the directory is there, the walk comes to its end. *)
Definition listed (tree : Tree) (d : Path) : Prop :=
  dir_exists tree d = Ok false
  \/ (dir_exists tree d = Ok true /\ rglob_raises tree d = None).

(** The files among them that yield a candidate record. *)
Definition is_candidate (cfg : Config) (tree : Tree) (p : Path) : bool :=
  match candidate tree (cache_dir cfg) p with
  | Ok (Some _) => true
  | _ => false
  end.

Definition candidate_count (cfg : Config) (tree : Tree) : nat :=
  length (List.filter (is_candidate cfg tree) (discovered cfg tree)).



(** The cache entry of a candidate is there and not older than its source. *)
Definition up_to_date (w : W) (c : Candidate) : Prop :=
  path_exists w (c_output c) = Ok true
  /\ exists t_out t_asset,
       st_mtime w (c_output c) = Some t_out
       /\ st_mtime w (c_asset c) = Some t_asset
       /\ (t_asset <= t_out)%Z.

(** What [classify] guarantees of a candidate's two paths. *)
Definition ldr_candidate (cache : Path) (c : Candidate) : Prop :=
  PyStr.lower (suffix (c_asset c)) ∈ LDR_EXTS
  /\ c_output c = output_path cache (c_guid c).

(** The command line of line 134 for a candidate. *)
Definition command_of (enc : Path) (c : Candidate) : list string :=
  build_command enc (c_asset c) (c_output c)
    (c_srgb c) (c_normal_map c) (c_flip_y c) (c_generate_mips c).

(** The scan of [metas] that starts in state [st] comes to the file [p]
    in state [s]: the files before [p] have been processed without an
    exception. *)
Definition reaches (cfg : Config) (tree : Tree) (metas : list Path)
    (st s : run_state) (p : Path) : Prop :=
  exists l1 l2, metas = l1 ++ p :: l2 /\ scan_metas cfg tree l1 st = Ok s.

(** What one run of the encoder, which takes the world from [w] to [w'],
    has left alone among the files the scan of this tree looks at: the
    time stamp of every candidate's source is as before; *)
Definition sources_kept (cfg : Config) (tree : Tree) (w w' : W) : Prop :=
  forall p' c',
    In p' (discovered cfg tree) ->
    candidate tree (cache_dir cfg) p' = Ok (Some c') ->
    st_mtime w' (c_asset c') = st_mtime w (c_asset c').

(** the cache entry of every candidate that is filed under another path
    than the one of [c], for which the encoder ran, is as before; *)
Definition entries_kept (cfg : Config) (tree : Tree) (c : Candidate) (w w' : W) : Prop :=
  forall p' c',
    In p' (discovered cfg tree) ->
    candidate tree (cache_dir cfg) p' = Ok (Some c') ->
    str (c_output c') <> str (c_output c) ->
    path_exists w' (c_output c') = path_exists w (c_output c')
    /\ st_mtime w' (c_output c') = st_mtime w (c_output c').



(** Along the scan of [metas] from [st], lines 42 and 135 raise nothing:
    the existence check of each candidate's output returns and, for a
    candidate found stale, spawning the encoder returns a completed
    process. *)
Definition calls_return (cfg : Config) (tree : Tree) (metas : list Path)
    (st : run_state) : Prop :=
  forall s p c,
    reaches cfg tree metas st s p ->
    candidate tree (cache_dir cfg) p = Ok (Some c) ->
    (exists there, path_exists (world s) (c_output c) = Ok there)
    /\ (should_encode (world s) (c_asset c) (c_output c) = Ok true ->
        exists cp w', subprocess_run (command_of (basisu cfg) c) (world s) = Ok (cp, w')).

(** A value on which [(v or {}).get] does not raise. *)
Definition dict_or_falsy (v : json) : bool :=
  match v with
  | JObj _ => true
  | _ => negb (truthy v)
  end.

(** A metadata file the scan gets through without an exception: it has a
    name, and its text is rejected by the JSON parser or is a JSON object
    whose [import] is falsy or an object, with a [texture] that is falsy
    or an object. *)
Definition well_formed_meta (tree : Tree) (p : Path) : bool :=
  negb (String.eqb (name p) "")
  && match read_json tree p with
     | Raise JSONDecodeError => true
     | Raise _ => false
     | Ok (JObj fields) =>
         match fields !! "import" with
         | None => true
         | Some (JObj imp) =>
             match imp !! "texture" with
             | None => true
             | Some tex => dict_or_falsy tex
             end
         | Some imp => negb (truthy imp)
         end
     | Ok _ => false
     end.

End Vocabulary.

(** ** Concrete worlds

    Small instances of [Runtime] and [Tree] on which the definitions
    run: a disk that maps path strings to time stamps, an encoder that
    works and one that does not. *)

Module Demo.

Definition disk : Type := list (string * Z).

Fixpoint stamp (d : disk) (p : string) : option Z :=
  match d with
  | [] => None
  | (q, t) :: d' => if String.eqb q p then Some t else stamp d' p
  end.

Definition present (d : disk) (p : string) : bool :=
  match stamp d p with Some _ => true | None => false end.

(** The two paths of a command line, read back from its end:
    [... -file <asset> -output_file <output> -no_status_output]. *)
Definition io_of (cmd : list string) : option (string * string) :=
  match rev cmd with
  | _ :: o :: _ :: a :: _ => Some (a, o)
  | _ => None
  end.

(** An encoder that writes its output with the time stamp of its source,
    and exits with 1 when the source is missing. *)
Definition basisu_ok (cmd : list string) (d : disk) : result (CompletedProcess * disk) :=
  match io_of cmd with
  | Some (a, o) =>
      match stamp d a with
      | Some t => Ok (mkCompleted 0 "", (o, t) :: d)
      | None => Ok (mkCompleted 1 "cannot open input", d)
      end
  | None => Ok (mkCompleted 1 "usage", d)
  end.

(** An encoder that always exits with 2. *)
Definition basisu_fail (cmd : list string) (d : disk) : result (CompletedProcess * disk) :=
  Ok (mkCompleted 2 "boom", d).

Definition working : Runtime disk :=
  {| os_exists := fun d p => Ok (present d p); os_mtime := stamp;
     subprocess_run := basisu_ok; container_str := fun _ => "[]" |}.

Definition failing : Runtime disk :=
  {| os_exists := fun d p => Ok (present d p); os_mtime := stamp;
     subprocess_run := basisu_fail; container_str := fun _ => "[]" |}.

(** A file system that refuses a name of more than 255 bytes, as POSIX
    ones do ([ENAMETOOLONG]): [stat] fails on such a path, and [exists]
    does not catch that error. *)
Definition name_too_long (p : string) : bool :=
  existsb (fun x => (255 <? String.length x)%nat) (PyStr.split slash p).

Definition posix : Runtime disk :=
  {| os_exists := fun d p => if name_too_long p then Raise OSError else Ok (present d p);
     os_mtime := fun d p => if name_too_long p then None else stamp d p;
     subprocess_run := basisu_ok; container_str := fun _ => "[]" |}.

(** An encoder binary that is there and cannot be started: spawning it
    raises [PermissionError], an [OSError]. *)
Definition not_executable : Runtime disk :=
  {| os_exists := fun d p => Ok (present d p); os_mtime := stamp;
     subprocess_run := fun _ _ => Raise OSError; container_str := fun _ => "[]" |}.

(** A guid of 300 characters. *)
Definition long_guid : string := string_of_list_ascii (repeat "g"%char 300).

(** A tree with one asset directory, given by its metadata files and
    what reading each yields. *)
Fixpoint read_in (files : list (string * result json)) (p : string) : result json :=
  match files with
  | [] => Raise OSError
  | (q, r) :: files' => if String.eqb q p then r else read_in files' p
  end.

Definition tree_of (dir : string) (files : list (string * result json)) : Tree :=
  {| dir_exists := fun d => Ok (String.eqb (str d) dir);
     rglob_cmeta := fun d => if String.eqb (str d) dir then map (fun f => parse (fst f)) files else [];
     rglob_raises := fun _ => None;
     read_json := fun p => read_in files (str p) |}.

Definition cfg : Config :=
  {| assets_dirs := [parse "/proj/Assets"];
     library_dir := parse "/proj/Library";
     basisu := parse "/opt/basisu" |}.

Definition texture (guid : json) (import : json) : json :=
  JObj (<["type" := JStr "texture"]> (<["guid" := guid]> (<["import" := import]> ∅))).

(** Scenario A of the specification: [tex.png] with empty import settings. *)
Definition tree_a : Tree :=
  tree_of "/proj/Assets"
    [("/proj/Assets/tex.png.cmeta", Ok (texture (JStr "abc123") (JObj ∅)))].

Definition disk_a : disk := [("/opt/basisu", 1%Z); ("/proj/Assets/tex.png", 7%Z)].

(** A material record, a texture without [guid], one with an empty [guid]. *)
Definition tree_filtered : Tree :=
  tree_of "/proj/Assets"
    [ ("/proj/Assets/mat.png.cmeta",
       Ok (JObj (<["type" := JStr "material"]> (<["guid" := JStr "m1"]> ∅))));
      ("/proj/Assets/anon.png.cmeta", Ok (JObj (<["type" := JStr "texture"]> ∅)));
      ("/proj/Assets/empty.png.cmeta", Ok (texture (JStr "") (JObj ∅))) ].

(** A file that is not UTF-8, then scenario A's texture. *)
Definition tree_not_utf8 : Tree :=
  tree_of "/proj/Assets"
    [ ("/proj/Assets/bad.png.cmeta", Raise UnicodeDecodeError);
      ("/proj/Assets/tex.png.cmeta", Ok (texture (JStr "abc123") (JObj ∅))) ].

(** A file that holds the JSON text [[]], then scenario A's texture. *)
Definition tree_list : Tree :=
  tree_of "/proj/Assets"
    [ ("/proj/Assets/bad.png.cmeta", Ok (JArr []));
      ("/proj/Assets/tex.png.cmeta", Ok (texture (JStr "abc123") (JObj ∅))) ].

(** A file that is not JSON, then scenario A's texture. *)
Definition tree_not_json : Tree :=
  tree_of "/proj/Assets"
    [ ("/proj/Assets/bad.png.cmeta", Raise JSONDecodeError);
      ("/proj/Assets/tex.png.cmeta", Ok (texture (JStr "abc123") (JObj ∅))) ].

(** Two textures whose guids differ and name the same cache file. *)
Definition tree_collide : Tree :=
  tree_of "/proj/Assets"
    [ ("/proj/Assets/a.png.cmeta", Ok (texture (JStr "a") (JObj ∅)));
      ("/proj/Assets/b.png.cmeta", Ok (texture (JStr "./a") (JObj ∅))) ].

Definition disk_collide : disk :=
  [("/opt/basisu", 1%Z); ("/proj/Assets/a.png", 5%Z); ("/proj/Assets/b.png", 9%Z)].

(** Scenario A's texture with the guid of 300 characters. *)
Definition tree_long : Tree :=
  tree_of "/proj/Assets"
    [("/proj/Assets/tex.png.cmeta", Ok (texture (JStr long_guid) (JObj ∅)))].

(** A project whose one asset directory has a name of 300 characters,
    and the tree of a file system that cannot examine it. *)
Definition cfg_long : Config :=
  {| assets_dirs := [truediv (parse "/proj") long_guid];
     library_dir := parse "/proj/Library";
     basisu := parse "/opt/basisu" |}.

Definition tree_posix : Tree :=
  {| dir_exists := fun d => if name_too_long (str d) then Raise OSError else Ok false;
     rglob_cmeta := fun _ => [];
     rglob_raises := fun _ => None;
     read_json := fun _ => Raise OSError |}.

(** Two textures with the guids [x] and [y]. *)
Definition tree_two : Tree :=
  tree_of "/proj/Assets"
    [ ("/proj/Assets/a.png.cmeta", Ok (texture (JStr "x") (JObj ∅)));
      ("/proj/Assets/b.png.cmeta", Ok (texture (JStr "y") (JObj ∅))) ].

End Demo.


(** ** Vocabulary of the further properties *)

Definition exited_zero (e : event) : bool :=
  match e with Spawn _ cp => (returncode cp =? 0)%Z | _ => false end.

Definition exited_nonzero (e : event) : bool :=
  match e with Spawn _ cp => negb (returncode cp =? 0)%Z | _ => false end.

Definition is_print_err (e : event) : bool :=
  match e with PrintErr _ => true | _ => false end.

(** how many events of a trace pass a test *)
Definition count (f : event -> bool) (tr : list event) : nat := length (List.filter f tr).

(** [s.startswith("/")] *)
Definition starts_with_slash (s : string) : bool :=
  match s with
  | String c _ => Ascii.eqb c slash
  | EmptyString => false
  end.

Section FurtherVocabulary.
Context {W : Type} `{RT : Runtime W}.


(** A metadata file that reads without exception and, if it yields a
    candidate, one that is up to date in [w] and cached in another file
    than [c]. *)
Definition fresh_apart (cfg : Config) (tree : Tree) (w : W) (c : Candidate) (q : Path) : Prop :=
  exists oc, candidate tree (cache_dir cfg) q = Ok oc
    /\ forall c', oc = Some c' ->
         up_to_date w c' /\ str (c_output c') <> str (c_output c).

(** A metadata file that reads without exception and, if it yields a
    candidate, one that is up to date in [w]. *)
Definition fresh (cfg : Config) (tree : Tree) (w : W) (q : Path) : Prop :=
  exists oc, candidate tree (cache_dir cfg) q = Ok oc
    /\ forall c, oc = Some c -> up_to_date w c.

(** The balance of the loop between two of its states, [n] candidates
    apart: the counters move with the trace. *)
Definition balanced (n : nat) (st st' : @run_state W) : Prop :=
  encoded st' + count exited_zero (trace st) = encoded st + count exited_zero (trace st')
  /\ count is_print_err (trace st') + count exited_nonzero (trace st)
     = count is_print_err (trace st) + count exited_nonzero (trace st')
  /\ encoded st' + skipped st' + count exited_nonzero (trace st')
     = encoded st + skipped st + count exited_nonzero (trace st) + n.

End FurtherVocabulary.

(** ** Before the scan: the command line and the project file *)

(** [resolve_paths] can also raise [TypeError], which the scan never
    does: the exceptions of the whole script are those of the scan and
    this one. *)
Inductive failure : Type :=
  | Exn (e : exn)
  | TypeError.

Inductive outcome (A : Type) : Type :=
  | Done (a : A)
  | Failed (f : failure).
Arguments Done {A} a.
Arguments Failed {A} f.

Definition lift {A : Type} (r : result A) : outcome A :=
  match r with
  | Ok a => Done a
  | Raise e => Failed (Exn e)
  end.

Definition and_then {A B : Type} (o : outcome A) (k : A -> outcome B) : outcome B :=
  match o with
  | Done a => k a
  | Failed f => Failed f
  end.

Notation "x <~ o ;; k" := (and_then o (fun x => k))
  (at level 100, o at next level, right associativity) : py_scope.

Module PyText.

(** [s.endswith(t)] *)
Definition endswith (s t : string) : bool :=
  String.eqb (PyStr.drop (String.length s - String.length t) s) t
  && (String.length t <=? String.length s)%nat.

(** a byte that continues a UTF-8 sequence *)
Definition is_continuation (c : ascii) : bool :=
  let n := nat_of_ascii c in (128 <=? n)%nat && (n <? 192)%nat.

(** [list(s)]: the characters of a string, each a string of its own; in
    the UTF-8 bytes that stand for the string, a character is a byte
    followed by its continuation bytes. *)
Fixpoint code_points (s : string) : list string :=
  match s with
  | EmptyString => []
  | String c s' =>
      let rest := code_points s' in
      match s', rest with
      | String d _, g :: gs =>
          if is_continuation d then String c g :: gs else String c EmptyString :: rest
      | _, _ => String c EmptyString :: rest
      end
  end.

End PyText.

(** [p.parent]: a path without components is its own parent. *)
Definition parent (p : Path) : Path := mkPath (root p) (removelast (parts p)).

(** [bool(p)]: [pathlib] defines neither [__bool__] nor [__len__], so
    every path object is true, the empty path [Path()] too. *)
Definition path_truthy (p : Path) : bool := true.

(** What the lines before the scan take from their runtime, besides
    [Runtime]:
    - [os_isfile] is [Path.is_file], which like [Path.exists] answers
      false for a path that is not there and lets any other [OSError] of
      [stat] through;
    - [os_resolve] is [Path.resolve()];
    - [os_load_json] opens a file for reading as UTF-8 and hands it to
      [json.load]: the parsed value, or the exception of the opening
      ([OSError]), of the decoding or of the parser;
    - [os_makedirs] is [Path.mkdir(parents=True, exist_ok=True)], which
      changes the world or raises [OSError];
    - [script_file] is [Path(__file__).resolve()];
    - [dict_keys] lists the keys of a dict in the order Python iterates
      them, the order of insertion, which a finite map does not keep. *)
Class Host (W : Type) : Type := {
  os_isfile : W -> string -> result bool;
  os_resolve : W -> Path -> Path;
  os_load_json : W -> string -> result json;
  os_makedirs : W -> string -> result W;
  script_file : Path;
  dict_keys : gmap string json -> list string
}.

(** [argparse]'s namespace after [parse_args]: the positional [project]
    (["."] when left out) and [--basisu] (the environment's
    [CRESCENT_BASISU_PATH], or the empty string, when left out). *)
Record Args : Type := mkArgs { project : string; basisu_option : string }.

Section Setup.
Context {W : Type} `{RT : Runtime W} `{HO : Host W}.

(** [find_project_file], lines 13-19.  As for the extensions of
    [LDR_EXTS], no character outside ASCII lowers to a letter of [.cproj],
    so [PyStr.lower] decides the test on the name as [str.lower] does. *)
Definition find_project_file (w : W) (root : Path) : result Path :=
  is_file <- os_isfile w (str root) ;;
  if is_file && PyText.endswith (PyStr.lower (name root)) ".cproj" then Ok root
  else
    let candidate := truediv root "Project.cproj" in
    there <- path_exists w candidate ;;
    if there then Ok candidate else Ok (mkPath "" []).

(** [load_project], lines 22-25 *)
Definition load_project (w : W) (project_file : Path) : result json :=
  os_load_json w (str project_file).

(** [for p in v]: the items of a list, the characters of a string, the
    keys of a dict; nothing else that JSON holds can be iterated. *)
Definition iterate (v : json) : outcome (list json) :=
  match v with
  | JArr items => Done items
  | JStr s => Done (map JStr (PyText.code_points s))
  | JObj fields => Done (map JStr (dict_keys fields))
  | _ => Failed TypeError
  end.

(** [root / v]: only a string joins a path. *)
Definition truediv_value (root : Path) (v : json) : outcome Path :=
  match v with
  | JStr s => Done (truediv root s)
  | _ => Failed TypeError
  end.

(** [[root / p for p in items]] *)
Fixpoint join_all (root : Path) (items : list json) : outcome (list Path) :=
  match items with
  | [] => Done []
  | v :: rest =>
      d <~ truediv_value root v ;;
      ds <~ join_all root rest ;;
      Done (d :: ds)
  end.

(** [resolve_paths], lines 28-33 *)
Definition resolve_paths (project_file : Path) (data : json) : outcome (list Path * Path) :=
  let root := parent project_file in
  a <~ lift (py_get data "assetPaths" JNull) ;;
  let assets := py_or a (JArr [JStr "Assets"]) in
  items <~ iterate assets ;;
  assets_dirs <~ join_all root items ;;
  l <~ lift (py_get data "library" (JStr "Library")) ;;
  library_dir <~ truediv_value root l ;;
  Done (assets_dirs, library_dir).

(** [basisu_path_from_script], lines 36-38 *)
Definition basisu_path_from_script : Path :=
  let script_dir := parent script_file in
  truediv (truediv (truediv (parent script_dir) "ThirdParty") "basisu") "basisu".

End Setup.

Module Cli.
Section Main.
Context {W : Type} `{RT : Runtime W} `{HO : Host W}.

(** [main], lines 82-142, from the parsed arguments on: the lines before
    the scan, then the [main] above (lines 100-142) with what they
    resolved. *)
Definition main (args : Args) (tree : Tree) (w : W) : outcome (Z * run_state) :=
  let project_arg := os_resolve w (parse (project args)) in
  project_file <~ lift (find_project_file w project_arg) ;;
  if negb (path_truthy project_file) then
    Done (1%Z, mkState 0 0 w
                 [PrintErr "Project.cproj not found. Pass project root or Project.cproj path."])
  else
    data <~ lift (load_project w project_file) ;;
    r <~ resolve_paths project_file data ;;
    let '(assets_dirs, library_dir) := r in
    w1 <~ lift (os_makedirs w (str (truediv library_dir "ImportCache"))) ;;
    let enc := if negb (String.eqb (basisu_option args) "")
               then parse (basisu_option args)
               else basisu_path_from_script in
    lift (main (mkConfig assets_dirs library_dir enc) tree w1).

End Main.
End Cli.

(** More concrete worlds, for the further properties. *)
Module Demo2.

(** Three textures: [a.png] is newer than its cache entry, [b.png] is up
    to date, the source of [c.png] is missing. *)
Definition tree : Tree :=
  Demo.tree_of "/proj/Assets"
    [ ("/proj/Assets/a.png.cmeta", Ok (Demo.texture (JStr "ga") (JObj ∅)));
      ("/proj/Assets/b.png.cmeta", Ok (Demo.texture (JStr "gb") (JObj ∅)));
      ("/proj/Assets/c.png.cmeta", Ok (Demo.texture (JStr "gc") (JObj ∅))) ].

(** The same without [c.png]. *)
Definition tree_ab : Tree :=
  Demo.tree_of "/proj/Assets"
    [ ("/proj/Assets/a.png.cmeta", Ok (Demo.texture (JStr "ga") (JObj ∅)));
      ("/proj/Assets/b.png.cmeta", Ok (Demo.texture (JStr "gb") (JObj ∅))) ].

Definition disk : Demo.disk :=
  [ ("/opt/basisu", 1%Z);
    ("/proj/Assets/a.png", 9%Z); ("/proj/Library/ImportCache/ga.ktx2", 5%Z);
    ("/proj/Assets/b.png", 3%Z); ("/proj/Library/ImportCache/gb.ktx2", 4%Z) ].

(** The state in which the run over [tree] ends. *)
Definition final : @run_state Demo.disk :=
  Eval vm_compute in
    match @main _ Demo.working Demo.cfg tree disk with
    | Ok (_, st) => st
    | Raise _ => mkState 0 0 [] []
    end.

Definition candidate_a : Candidate :=
  mkCandidate (JStr "ga") (parse "/proj/Assets/a.png")
    (parse "/proj/Library/ImportCache/ga.ktx2") true false false true.

Definition candidate_b : Candidate :=
  mkCandidate (JStr "gb") (parse "/proj/Assets/b.png")
    (parse "/proj/Library/ImportCache/gb.ktx2") true false false true.

(** A high dynamic range image with import settings that are no object,
    and a texture with such settings. *)
Definition tree_hdr : Tree :=
  Demo.tree_of "/proj/Assets"
    [ ("/proj/Assets/sky.hdr.cmeta", Ok (Demo.texture (JStr "gh") (JStr "fast")));
      ("/proj/Assets/a.png.cmeta", Ok (Demo.texture (JStr "ga") (JStr "fast"))) ].

(** A project file with three asset paths and a library. *)
Definition project_fields : gmap string json :=
  <["assetPaths" := JArr (map JStr ["Assets"; "/shared/Textures"; "Extra/Art"])]>
    (<["library" := JStr "Cache"]> ∅).

End Demo2.

(** A host for the concrete worlds: the files of a list, a project file
    that holds [data], directories made on request. *)
Module DemoHost.

Definition host (files : list string) (project_file : string) (data : result json)
    : Host Demo.disk :=
  {| os_isfile := fun _ p => Ok (existsb (String.eqb p) files);
     os_resolve := fun _ p => p;
     os_load_json := fun _ p => if String.eqb p project_file then data else Raise OSError;
     os_makedirs := fun d p => Ok ((p, 0%Z) :: d);
     script_file := parse "/engine/scripts/encode_textures.py";
     dict_keys := fun m => map fst (map_to_list m) |}.

End DemoHost.


(** * Properties *)

Lemma bind_Ok {A B : Type} (r : result A) (k : A -> result B) (b : B) :
  bind r k = Ok b -> exists a, r = Ok a /\ k a = Ok b.
Proof. destruct r as [a|e]; simpl; [eauto | discriminate]. Qed.

(** ** Running the model *)

Example parse_abs :
  parse "/proj//Library/./ImportCache" = mkPath "/" ["proj"; "Library"; "ImportCache"].
Proof. reflexivity. Qed.

Example truediv_rel :
  str (truediv (parse "/proj/Library/ImportCache") "abc123.ktx2")
  = "/proj/Library/ImportCache/abc123.ktx2".
Proof. reflexivity. Qed.

Example with_suffix_meta :
  with_suffix_empty (parse "Assets/tex.PNG.cmeta") = Ok (parse "Assets/tex.PNG")
  /\ PyStr.lower (suffix (parse "Assets/tex.PNG")) = ".png".
Proof. split; reflexivity. Qed.

Example suffix_dotfile :
  suffix (parse "Assets/.cmeta") = "" /\ suffix (parse "a/b.") = "".
Proof. split; reflexivity. Qed.

Example truediv_absolute :
  truediv (parse "/proj/Library/ImportCache") "/abs/x.ktx2" = mkPath "/" ["abs"; "x.ktx2"]
  /\ parse "//a//b/./c/" = mkPath "//" ["a"; "b"; "c"]
  /\ str (parse "") = ".".
Proof. repeat split. Qed.

(** Scenario A: the first run encodes [tex.png], the run after it skips. *)
Example scenario_a_first_run :
  exists st, @main _ Demo.working Demo.cfg Demo.tree_a Demo.disk_a = Ok (0%Z, st)
    /\ encoded st = 1 /\ skipped st = 0
    /\ @main _ Demo.working Demo.cfg Demo.tree_a (world st)
       = Ok (0%Z, mkState 0 1 (world st) [PrintOut "Encoded 0 texture(s), skipped 1."]).
Proof. eexists. split; [vm_compute; reflexivity|]. repeat split. Qed.

(** ** The command line *)

(** C1. For all four settings, [build_command] returns exactly the
    invocation of the specification, in its order: the mode is [-uastc]
    and the quality [50] exactly when [normal_map] holds ([-etc1s] and [80]
    otherwise), the colour space is [-srgb] exactly when [srgb] holds
    ([-linear] otherwise), [-y_flip] is there exactly when [flip_y] holds
    and [-mipmap] exactly when [generate_mips] holds; [-effort 4] and
    [-no_status_output] are always there. *)
Theorem build_command_argv (enc asset out : Path) (srgb normal_map flip_y generate_mips : bool) :
  build_command enc asset out srgb normal_map flip_y generate_mips
  = invocation (str enc)
      (if normal_map then "-uastc" else "-etc1s")
      (if srgb then "-srgb" else "-linear")
      flip_y generate_mips
      (if normal_map then "50" else "80")
      (str asset) (str out).
Proof.
  unfold build_command, invocation.
  destruct flip_y, generate_mips; reflexivity.
Qed.

Section Properties.
Context {W : Type} `{RT : Runtime W}.

(** ** Staleness *)

(** C2. When the existence check of the output returns, [should_encode]
    answers "encode" exactly when the output does not exist, or a time
    stamp cannot be read, or the output's time stamp is strictly earlier
    than the source's; with the output there and both stamps read and equal
    it answers "skip".  When the existence check raises, [should_encode]
    does not answer: line 42 stands before the [try], and the exception leaves
    the function. *)
Theorem should_encode_decision (w : W) (asset out : Path) :
  (forall e, path_exists w out = Raise e -> should_encode w asset out = Raise e)
  /\ (forall there, path_exists w out = Ok there ->
        (exists answer, should_encode w asset out = Ok answer)
        /\ (should_encode w asset out = Ok true <->
              there = false
              \/ st_mtime w out = None \/ st_mtime w asset = None
              \/ exists t_out t_asset, st_mtime w out = Some t_out
                   /\ st_mtime w asset = Some t_asset /\ (t_out < t_asset)%Z))
  /\ (forall t, path_exists w out = Ok true ->
        st_mtime w out = Some t -> st_mtime w asset = Some t ->
        should_encode w asset out = Ok false).
Proof.
  unfold should_encode. split; [|split].
  - intros e ->. reflexivity.
  - intros there ->. simpl.
    destruct there; simpl; [|split; [eauto | intuition]].
    destruct (st_mtime w out) as [to|]; [|split; [eauto | intuition]].
    destruct (st_mtime w asset) as [ta|]; [|split; [eauto | intuition]].
    split; [eauto|]. split.
    + intros [= Hlt]. apply Z.ltb_lt in Hlt. do 3 right. exists to, ta. auto.
    + intros [Hf|[Hf|[Hf|(x & y & Hx & Hy & Hlt)]]]; try discriminate.
      injection Hx as <-. injection Hy as <-. f_equal. apply Z.ltb_lt. exact Hlt.
  - intros t -> -> ->. simpl. f_equal. apply Z.ltb_irrefl.
Qed.

End Properties.

(** The output of a record whose guid has 300 characters cannot be
    examined: the existence check raises, and so does [should_encode]. *)
Lemma should_encode_decision_witness :
  @should_encode _ Demo.posix Demo.disk_a (parse "/proj/Assets/tex.png")
    (@output_path _ Demo.posix (cache_dir Demo.cfg) (JStr Demo.long_guid))
  = Raise OSError.
Proof.
  apply (proj1 (@should_encode_decision _ Demo.posix Demo.disk_a (parse "/proj/Assets/tex.png")
                  (@output_path _ Demo.posix (cache_dir Demo.cfg) (JStr Demo.long_guid)))).
  vm_compute. reflexivity.
Defined.

(** Equal time stamps are up to date; an older output is stale; so is one
    whose source cannot be read. *)
Example should_encode_cases :
  @should_encode _ Demo.working
    [("/c/g.ktx2", 5%Z); ("/a/t.png", 5%Z)] (parse "/a/t.png") (parse "/c/g.ktx2") = Ok false
  /\ @should_encode _ Demo.working
       [("/c/g.ktx2", 4%Z); ("/a/t.png", 5%Z)] (parse "/a/t.png") (parse "/c/g.ktx2") = Ok true
  /\ @should_encode _ Demo.working
       [("/c/g.ktx2", 4%Z)] (parse "/a/t.png") (parse "/c/g.ktx2") = Ok true.
Proof. repeat split. Qed.

(** The whole run over such a record ends with that exception, where a
    record with a short guid is encoded. *)
Example long_guid_aborts_run :
  @main _ Demo.posix Demo.cfg Demo.tree_long Demo.disk_a = Raise OSError
  /\ exists st, @main _ Demo.posix Demo.cfg Demo.tree_a Demo.disk_a = Ok (0%Z, st)
                /\ encoded st = 1.
Proof. split; [vm_compute; reflexivity|]. eexists. split; [vm_compute; reflexivity|]. reflexivity. Qed.

Section Records.
Context {W : Type} `{RT : Runtime W}.

(** ** Records that are filtered out *)

Lemma process_meta_none (cfg : Config) (tree : Tree) (p : Path) (st : run_state) :
  candidate tree (cache_dir cfg) p = Ok None -> process_meta cfg tree p st = Ok st.
Proof. unfold process_meta. intros ->. reflexivity. Qed.

Lemma scan_metas_step (cfg : Config) (tree : Tree) (p : Path) (rest : list Path)
    (st st' : run_state) :
  process_meta cfg tree p st = Ok st' ->
  scan_metas cfg tree (p :: rest) st = scan_metas cfg tree rest st'.
Proof. simpl. intros ->. reflexivity. Qed.

(** A [continue] before line 130 leaves the loop's variables alone. *)
Lemma filtered_out (cfg : Config) (tree : Tree) (p : Path) (rest : list Path)
    (st : run_state) :
  candidate tree (cache_dir cfg) p = Ok None ->
  process_meta cfg tree p st = Ok st
  /\ scan_metas cfg tree (p :: rest) st = scan_metas cfg tree rest st.
Proof.
  intros Hnone. pose proof (process_meta_none cfg tree p st Hnone) as Hp.
  split; [exact Hp | exact (scan_metas_step cfg tree p rest st st Hp)].
Qed.

(** C4. A record whose [type] is not the string [texture], or that has no
    [guid], leaves the run as it found it: no encoder process and no print
    is added to the trace, the world (so the cache) is the same, and both
    counters are unchanged; the scan goes on with the next file. *)
Theorem not_texture_or_no_guid_excluded (cfg : Config) (tree : Tree) (p : Path)
    (rest : list Path) (fields : gmap string json) (st : run_state) :
  read_json tree p = Ok (JObj fields) ->
  fields !! "type" <> Some (JStr "texture") \/ fields !! "guid" = None ->
  process_meta cfg tree p st = Ok st
  /\ scan_metas cfg tree (p :: rest) st = scan_metas cfg tree rest st.
Proof.
  intros Hread Hcase.
  apply filtered_out.
  unfold candidate. rewrite Hread. unfold classify. simpl.
  destruct (fields !! "type") as [ty|] eqn:Hty; simpl; [|reflexivity].
  destruct (py_ne_str ty "texture") eqn:Hne; [reflexivity|].
  destruct Hcase as [Hcase|Hcase].
  - exfalso. apply Hcase. f_equal.
    destruct ty; simpl in Hne; try discriminate.
    apply negb_false_iff, String.eqb_eq in Hne. congruence.
  - rewrite Hcase. reflexivity.
Qed.

(** C9. A record whose [guid] is there but falsy (the empty string, [0],
    [null], [false], an empty list or dict) is dropped like one without
    [guid]: the run is left as it was found. *)
Theorem falsy_guid_excluded (cfg : Config) (tree : Tree) (p : Path)
    (rest : list Path) (fields : gmap string json) (guid : json) (st : run_state) :
  read_json tree p = Ok (JObj fields) ->
  fields !! "guid" = Some guid ->
  truthy guid = false ->
  process_meta cfg tree p st = Ok st
  /\ scan_metas cfg tree (p :: rest) st = scan_metas cfg tree rest st.
Proof.
  intros Hread Hguid Hfalsy.
  apply filtered_out.
  unfold candidate. rewrite Hread. unfold classify. simpl.
  destruct (py_ne_str _ "texture"); [reflexivity|].
  rewrite Hguid, Hfalsy. reflexivity.
Qed.

End Records.

Lemma not_texture_or_no_guid_excluded_witness :
  let st := mkState 0 0 Demo.disk_a [] in
  @process_meta _ Demo.working Demo.cfg Demo.tree_filtered (parse "/proj/Assets/mat.png.cmeta") st
    = Ok st
  /\ @scan_metas _ Demo.working Demo.cfg Demo.tree_filtered
       [parse "/proj/Assets/mat.png.cmeta"; parse "/proj/Assets/anon.png.cmeta"] st
     = @scan_metas _ Demo.working Demo.cfg Demo.tree_filtered
         [parse "/proj/Assets/anon.png.cmeta"] st.
Proof.
  apply (@not_texture_or_no_guid_excluded _ Demo.working Demo.cfg Demo.tree_filtered
           (parse "/proj/Assets/mat.png.cmeta") [parse "/proj/Assets/anon.png.cmeta"]
           (<["type" := JStr "material"]> (<["guid" := JStr "m1"]> ∅))).
  - reflexivity.
  - left. intros H. vm_compute in H. discriminate.
Defined.

Lemma falsy_guid_excluded_witness :
  let st := mkState 0 0 Demo.disk_a [] in
  @process_meta _ Demo.working Demo.cfg Demo.tree_filtered (parse "/proj/Assets/empty.png.cmeta") st
    = Ok st
  /\ @scan_metas _ Demo.working Demo.cfg Demo.tree_filtered
       [parse "/proj/Assets/empty.png.cmeta"] st
     = @scan_metas _ Demo.working Demo.cfg Demo.tree_filtered [] st.
Proof.
  apply (@falsy_guid_excluded _ Demo.working Demo.cfg Demo.tree_filtered
           (parse "/proj/Assets/empty.png.cmeta") []
           (<["type" := JStr "texture"]> (<["guid" := JStr ""]> (<["import" := JObj ∅]> ∅)))
           (JStr "")).
  - reflexivity.
  - reflexivity.
  - reflexivity.
Defined.

Section Candidates.
Context {W : Type} `{RT : Runtime W}.

(** ** What a candidate carries *)

Lemma classify_Some (cache p : Path) (meta : json) (c : Candidate) :
  classify cache p meta = Ok (Some c) ->
  exists fields,
    meta = JObj fields
    /\ fields !! "type" = Some (JStr "texture")
    /\ fields !! "guid" = Some (c_guid c)
    /\ truthy (c_guid c) = true
    /\ with_suffix_empty p = Ok (c_asset c)
    /\ PyStr.lower (suffix (c_asset c)) ∈ LDR_EXTS
    /\ c_output c = output_path cache (c_guid c)
    /\ import_settings meta
       = Ok (c_srgb c, c_normal_map c, c_flip_y c, c_generate_mips c).
Proof.
  unfold classify. intros H.
  destruct meta as [| | | | | |fields]; try discriminate.
  exists fields. simpl in H.
  destruct (fields !! "type") as [ty|] eqn:Hty; simpl in H; [|discriminate].
  destruct (py_ne_str ty "texture") eqn:Hne; [discriminate|].
  assert (ty = JStr "texture") as ->.
  { destruct ty; simpl in Hne; try discriminate.
    apply negb_false_iff, String.eqb_eq in Hne. congruence. }
  destruct (fields !! "guid") as [guid|] eqn:Hguid; simpl in H; [|discriminate].
  destruct (truthy guid) eqn:Htr; simpl in H; [|discriminate].
  destruct (with_suffix_empty p) as [asset|e] eqn:Hws; simpl in H; [|discriminate].
  destruct (bool_decide (PyStr.lower (suffix asset) ∈ LDR_EXTS)) eqn:Hext;
    simpl in H; [|discriminate].
  apply bool_decide_eq_true in Hext.
  destruct (import_settings (JObj fields)) as [[[[s n] f] g]|e] eqn:Hs;
    simpl in H; [|discriminate].
  injection H as <-. simpl. repeat split; auto.
Qed.

Lemma candidate_Some (tree : Tree) (cache p : Path) (c : Candidate) :
  candidate tree cache p = Ok (Some c) ->
  exists meta, read_json tree p = Ok meta /\ classify cache p meta = Ok (Some c).
Proof.
  unfold candidate. destruct (read_json tree p) as [meta|e]; [eauto|].
  destruct e; discriminate.
Qed.

(** ** Import settings *)

Lemma py_or_empty_dict (tex : gmap string json) :
  py_or (JObj tex) (JObj ∅) = JObj tex.
Proof.
  unfold py_or. simpl. destruct (bool_decide (tex = ∅)) eqn:He; simpl; [|reflexivity].
  apply bool_decide_eq_true in He. subst. reflexivity.
Qed.

Lemma import_settings_of_dict (fields imp tex : gmap string json) :
  fields !! "import" = Some (JObj imp) ->
  imp !! "texture" = Some (JObj tex) ->
  import_settings (JObj fields)
  = Ok (setting tex "srgb" true, setting tex "normalMap" false,
        setting tex "flipY" false, setting tex "generateMipmaps" true).
Proof.
  intros Himp Htex. unfold import_settings. simpl. rewrite Himp.
  rewrite py_or_empty_dict. simpl. rewrite Htex.
  rewrite py_or_empty_dict. simpl. unfold setting.
  destruct (tex !! "srgb"), (tex !! "normalMap"), (tex !! "flipY"),
    (tex !! "generateMipmaps"); reflexivity.
Qed.

Lemma import_settings_no_texture (fields : gmap string json) :
  fields !! "import" = None
  \/ (exists imp, fields !! "import" = Some (JObj imp) /\ imp !! "texture" = None) ->
  import_settings (JObj fields) = Ok (true, false, false, true).
Proof.
  intros [Himp|(imp & Himp & Htex)]; unfold import_settings; simpl; rewrite Himp.
  - reflexivity.
  - rewrite py_or_empty_dict. simpl. rewrite Htex. reflexivity.
Qed.


(** ** The encoder's exit status *)

(** C5. When the encoder exits with a status other than zero, the
    pipeline prints the asset path with the captured standard error,
    leaves both counters as they were, and goes on with the remaining
    files from that state; when it exits with zero the encoded counter
    goes up by one. *)
Theorem nonzero_exit_reported (cfg : Config) (tree : Tree) (p : Path) (rest : list Path)
    (c : Candidate) (st : run_state) (cp : CompletedProcess) (w' : W) :
  let cmd := build_command (basisu cfg) (c_asset c) (c_output c)
               (c_srgb c) (c_normal_map c) (c_flip_y c) (c_generate_mips c) in
  candidate tree (cache_dir cfg) p = Ok (Some c) ->
  should_encode (world st) (c_asset c) (c_output c) = Ok true ->
  subprocess_run cmd (world st) = Ok (cp, w') ->
  (returncode cp <> 0%Z ->
     let st' := mkState (encoded st) (skipped st) w'
                  (trace st ++ [ Spawn cmd cp;
                                 PrintErr ("Failed: " +:+ str (c_asset c) +:+ nl +:+ stderr cp) ]) in
     process_meta cfg tree p st = Ok st'
     /\ scan_metas cfg tree (p :: rest) st = scan_metas cfg tree rest st')
  /\ (returncode cp = 0%Z ->
        let st' := mkState (S (encoded st)) (skipped st) w' (trace st ++ [Spawn cmd cp]) in
        process_meta cfg tree p st = Ok st'
        /\ scan_metas cfg tree (p :: rest) st = scan_metas cfg tree rest st').
Proof.
  intros cmd Hc Hstale Hrun.
  assert (Hstep : process_meta cfg tree p st
                  = if negb (returncode cp =? 0)%Z
                    then Ok (mkState (encoded st) (skipped st) w'
                               (trace st ++ [ Spawn cmd cp;
                                  PrintErr ("Failed: " +:+ str (c_asset c) +:+ nl +:+ stderr cp) ]))
                    else Ok (mkState (S (encoded st)) (skipped st) w' (trace st ++ [Spawn cmd cp]))).
  { unfold process_meta. rewrite Hc. simpl. unfold encode. rewrite Hstale. simpl.
    fold cmd. rewrite Hrun. reflexivity. }
  split; intros Hrc; cbv zeta.
  - apply Z.eqb_neq in Hrc. rewrite Hrc in Hstep. simpl in Hstep.
    split; [exact Hstep | exact (scan_metas_step _ _ _ _ _ _ Hstep)].
  - apply Z.eqb_eq in Hrc. rewrite Hrc in Hstep. simpl in Hstep.
    split; [exact Hstep | exact (scan_metas_step _ _ _ _ _ _ Hstep)].
Qed.

(** ** Metadata that does not parse *)

(** C6, as the code has it. A metadata file whose text the JSON parser
    rejects is dropped without a trace: no exception, nothing printed, the
    counters and the world as before, and the scan goes on with the next
    file. *)
Theorem json_decode_error_skipped (cfg : Config) (tree : Tree) (p : Path)
    (rest : list Path) (st : run_state) :
  read_json tree p = Raise JSONDecodeError ->
  process_meta cfg tree p st = Ok st
  /\ scan_metas cfg tree (p :: rest) st = scan_metas cfg tree rest st.
Proof.
  intros Hread.
  apply filtered_out.
  unfold candidate. rewrite Hread. reflexivity.
Qed.

End Candidates.

(** ** Strings and paths *)

#[local] Arguments String.append !s1 s2 : simpl nomatch.

Example splitroot_slashes :
  splitroot "/a" = ("/", "a") /\ splitroot "//a" = ("//", "a")
  /\ splitroot "///a" = ("/", "//a") /\ splitroot "a/b" = ("", "a/b").
Proof. repeat split. Qed.

Lemma append_nil_r (s : string) : s +:+ "" = s.
Proof. induction s as [|c s IH]; simpl; [reflexivity | now rewrite IH]. Qed.

Lemma append_assoc (a b c : string) : (a +:+ b) +:+ c = a +:+ (b +:+ c).
Proof. induction a as [|x a IH]; simpl; [reflexivity | now rewrite IH]. Qed.

Lemma length_append (a b : string) :
  String.length (a +:+ b) = String.length a + String.length b.
Proof. induction a as [|x a IH]; simpl; [reflexivity | now rewrite IH]. Qed.

Lemma append_inv_head (a b c : string) : a +:+ b = a +:+ c -> b = c.
Proof.
  induction a as [|x a IH]; simpl; intros H; [exact H|].
  injection H as H. auto.
Qed.

Lemma append_inv_tail (a b c : string) : a +:+ c = b +:+ c -> a = b.
Proof.
  revert b. induction a as [|x a IH]; intros [|y b] H; simpl in H.
  - reflexivity.
  - exfalso. apply (f_equal String.length) in H. simpl in H.
    rewrite length_append in H. lia.
  - exfalso. apply (f_equal String.length) in H. simpl in H.
    rewrite length_append in H. lia.
  - injection H as -> H. f_equal. auto.
Qed.

Lemma last_char_append (a b : string) :
  b <> "" -> PyStr.last_char (a +:+ b) = PyStr.last_char b.
Proof.
  intros Hb. induction a as [|x a IH]; simpl; [reflexivity|].
  rewrite <- IH. destruct (a +:+ b) eqn:E; [|reflexivity].
  destruct a; simpl in E; [contradiction | discriminate].
Qed.

Lemma last_char_lower (s : string) :
  PyStr.last_char (PyStr.lower s) = option_map PyStr.lower_char (PyStr.last_char s).
Proof.
  induction s as [|c s IH]; simpl; [reflexivity|].
  destruct s as [|d s]; simpl in *; [reflexivity | exact IH].
Qed.

Lemma take_drop (i : nat) (s : string) : PyStr.take i s +:+ PyStr.drop i s = s.
Proof.
  revert s. induction i as [|i IH]; intros [|c s]; simpl; try reflexivity.
  now rewrite IH.
Qed.

Lemma length_drop (i : nat) (s : string) :
  String.length (PyStr.drop i s) = String.length s - i.
Proof.
  revert s. induction i as [|i IH]; intros [|c s]; simpl; auto.
Qed.

Lemma split_no_sep (sep : ascii) (s : string) :
  PyStr.contains sep s = false -> PyStr.split sep s = [s].
Proof.
  induction s as [|c s IH]; simpl; [reflexivity|].
  intros H. apply orb_false_iff in H as [Hc Hs].
  rewrite Hc, (IH Hs). reflexivity.
Qed.

(** Appending text without separator extends the last piece. *)
Lemma split_append (sep : ascii) (s t : string) :
  PyStr.contains sep t = false ->
  exists l x, PyStr.split sep s = l ++ [x] /\ PyStr.split sep (s +:+ t) = l ++ [x +:+ t].
Proof.
  intros Ht. induction s as [|c s (l & x & Hs & Hst)]; simpl.
  - exists [], "". split; [reflexivity|]. now rewrite split_no_sep.
  - destruct (Ascii.eqb c sep).
    + exists ("" :: l), x. rewrite Hs, Hst. split; reflexivity.
    + rewrite Hs, Hst. destruct l as [|y l]; simpl.
      * exists [], (String c x). split; reflexivity.
      * exists (String c y :: l), x. split; reflexivity.
Qed.

(** [sep.join] of a list that ends in [x]: a prefix, then [x]. *)
Lemma join_snoc (sep : string) (l : list string) (x : string) :
  exists pre, forall y, PyStr.join sep (l ++ [y]) = pre +:+ y.
Proof.
  induction l as [|a l (pre & IH)]; simpl.
  - exists "". reflexivity.
  - exists (a +:+ sep +:+ pre). intros y.
    destruct (l ++ [y]) eqn:E.
    + destruct l; discriminate.
    + rewrite <- E, IH. now rewrite !append_assoc.
Qed.

Lemma str_snoc (r : string) (l : list string) :
  exists pre, forall y, y <> "" -> str (mkPath r (l ++ [y])) = pre +:+ y.
Proof.
  destruct (join_snoc "/" l "") as (pre & Hpre).
  exists (r +:+ pre). intros y Hy. unfold str. simpl.
  rewrite Hpre, <- append_assoc.
  destruct (String.eqb_spec ((r +:+ pre) +:+ y) "") as [E|_]; [|reflexivity].
  exfalso. apply (f_equal String.length) in E. rewrite length_append in E.
  destruct y; [contradiction | simpl in E; lia].
Qed.

Lemma splitroot_append_ktx2 (s : string) :
  splitroot (s +:+ ".ktx2") = (fst (splitroot s), snd (splitroot s) +:+ ".ktx2").
Proof.
  destruct s as [|c1 [|c2 [|c3 s]]]; simpl; try reflexivity.
  - destruct (Ascii.eqb c1 slash); reflexivity.
  - destruct (Ascii.eqb c1 slash); simpl; [|reflexivity].
    destruct (Ascii.eqb c2 slash); reflexivity.
  - destruct (Ascii.eqb c1 slash); simpl; [|reflexivity].
    destruct (Ascii.eqb c2 slash); simpl; [|reflexivity].
    destruct (Ascii.eqb c3 slash); reflexivity.
Qed.

Lemma kept_ktx2 (x : string) : kept (x +:+ ".ktx2") = true.
Proof.
  unfold kept.
  destruct (String.eqb_spec (x +:+ ".ktx2") "") as [E|_].
  { apply (f_equal String.length) in E. rewrite length_append in E. simpl in E. lia. }
  destruct (String.eqb_spec (x +:+ ".ktx2") ".") as [E|_]; [|reflexivity].
  apply (f_equal String.length) in E. rewrite length_append in E. simpl in E. lia.
Qed.

(** The last component of [cache / (s + ".ktx2")] ends in [.ktx2],
    whatever [s] is. *)
Lemma truediv_ktx2_parts (cache : Path) (s : string) :
  exists l x, parts (truediv cache (s +:+ ".ktx2")) = l ++ [x +:+ ".ktx2"].
Proof.
  unfold truediv, parse. rewrite splitroot_append_ktx2.
  destruct (splitroot s) as [r rel]. simpl.
  destruct (split_append slash rel ".ktx2" eq_refl) as (l & x & _ & Hsplit).
  rewrite Hsplit, List.filter_app. simpl. rewrite kept_ktx2.
  destruct (String.eqb r ""); simpl.
  - exists (parts cache ++ List.filter kept l), x. now rewrite app_assoc.
  - eauto.
Qed.

Lemma str_truediv_ktx2_last (cache : Path) (s : string) :
  PyStr.last_char (str (truediv cache (s +:+ ".ktx2"))) = Some "2"%char.
Proof.
  destruct (truediv_ktx2_parts cache s) as (l & x & Hparts).
  destruct (truediv cache (s +:+ ".ktx2")) as [r ps]. simpl in Hparts. subst ps.
  destruct (str_snoc r l) as (pre & Hstr).
  assert (Hne : x +:+ ".ktx2" <> "").
  { intros E. apply (f_equal String.length) in E. rewrite length_append in E.
    simpl in E. lia. }
  rewrite (Hstr _ Hne), <- append_assoc.
  now rewrite last_char_append.
Qed.

Lemma ldr_ext_last_char (sfx : string) :
  PyStr.lower sfx ∈ LDR_EXTS ->
  exists c, PyStr.last_char sfx = Some c /\ c <> "2"%char.
Proof.
  intros Hin.
  assert (Hlast : exists d, PyStr.last_char (PyStr.lower sfx) = Some d /\ d <> "2"%char).
  { unfold LDR_EXTS in Hin. set_unfold in Hin.
    destruct Hin as [[[[[[[E|E]|E]|E]|E]|E]|E]|E]; rewrite E; simpl;
      eexists; (split; [reflexivity | discriminate]). }
  destruct Hlast as (d & Hd & Hne). rewrite last_char_lower in Hd.
  destruct (PyStr.last_char sfx) as [c|]; [|discriminate].
  exists c. split; [reflexivity|]. intros ->. simpl in Hd.
  injection Hd as <-. apply Hne. reflexivity.
Qed.

Lemma name_suffix_tail (n : string) :
  name_suffix n <> "" -> exists pre, n = pre +:+ name_suffix n.
Proof.
  unfold name_suffix. destruct (PyStr.rfind dot n) as [i|]; [|contradiction].
  destruct ((0 <? i)%nat && (i <? String.length n - 1)%nat); [|contradiction].
  intros _. exists (PyStr.take i n). symmetry. apply take_drop.
Qed.

Lemma str_last_char_name (p : Path) :
  name p <> "" -> PyStr.last_char (str p) = PyStr.last_char (name p).
Proof.
  unfold name. destruct p as [r ps]. simpl. intros Hn.
  assert (Hps : ps <> []) by (intros ->; contradiction).
  rewrite (app_removelast_last "" Hps) at 1.
  destruct (str_snoc r (removelast ps)) as (pre & Hstr).
  rewrite (Hstr _ Hn). now apply last_char_append.
Qed.

(** A path whose lowered suffix is in [LDR_EXTS] is never the output
    path of a record: the one ends in a letter, the other in [2]. *)
Lemma ldr_asset_not_output (asset cache : Path) (s : string) :
  PyStr.lower (suffix asset) ∈ LDR_EXTS ->
  str asset <> str (truediv cache (s +:+ ".ktx2")).
Proof.
  intros Hin Heq.
  destruct (ldr_ext_last_char _ Hin) as (c & Hc & Hne).
  assert (Hsfx : suffix asset <> "") by (intros E; rewrite E in Hc; discriminate).
  destruct (name_suffix_tail (name asset) Hsfx) as (pre & Hname).
  assert (Hn : name asset <> "").
  { intros E. unfold suffix in Hsfx. rewrite E in Hsfx. contradiction. }
  pose proof (str_last_char_name asset Hn) as Hlast.
  unfold suffix in Hc, Hsfx.
  set (sfx := name_suffix (name asset)) in *. clearbody sfx.
  rewrite Hname, (last_char_append _ _ Hsfx), Hc, Heq, str_truediv_ktx2_last in Hlast.
  injection Hlast as <-. apply Hne. reflexivity.
Qed.

(** ** Output paths *)

Lemma parse_simple_ktx2 (g : string) :
  PyStr.contains slash g = false ->
  parse (g +:+ ".ktx2") = mkPath "" [g +:+ ".ktx2"].
Proof.
  intros Hg. unfold parse.
  assert (Hroot : splitroot (g +:+ ".ktx2") = ("", g +:+ ".ktx2")).
  { destruct g as [|c g]; [reflexivity|]. simpl in *.
    apply orb_false_iff in Hg as [-> _]. reflexivity. }
  rewrite Hroot, split_no_sep.
  - simpl. now rewrite kept_ktx2.
  - clear Hroot. induction g as [|c g IH]; [reflexivity|].
    simpl in *. apply orb_false_iff in Hg as [-> Hg]. simpl. auto.
Qed.

Section Outputs.
Context {W : Type} `{RT : Runtime W}.

Lemma output_path_simple (cache : Path) (g : string) :
  PyStr.contains slash g = false ->
  output_path cache (JStr g) = mkPath (root cache) (parts cache ++ [g +:+ ".ktx2"]).
Proof.
  intros Hg. unfold output_path, truediv. simpl.
  now rewrite (parse_simple_ktx2 g Hg).
Qed.

Lemma process_meta_entries_kept (cfg : Config) (tree : Tree) (p p' : Path)
    (c c' : Candidate) (st st' : run_state) :
  candidate tree (cache_dir cfg) p = Ok (Some c) ->
  process_meta cfg tree p st = Ok st' ->
  (forall cp w', subprocess_run (command_of (basisu cfg) c) (world st) = Ok (cp, w') ->
     entries_kept cfg tree c (world st) w') ->
  In p' (discovered cfg tree) ->
  candidate tree (cache_dir cfg) p' = Ok (Some c') ->
  str (c_output c') <> str (c_output c) ->
  path_exists (world st') (c_output c') = path_exists (world st) (c_output c')
  /\ st_mtime (world st') (c_output c') = st_mtime (world st) (c_output c').
Proof.
  intros Hc Hp Hkept Hin Hc' Hne. unfold process_meta in Hp. rewrite Hc in Hp. simpl in Hp.
  unfold encode in Hp.
  destruct (should_encode (world st) (c_asset c) (c_output c)) as [[|]|e]; simpl in Hp;
    [| |discriminate].
  - fold (command_of (basisu cfg) c) in Hp.
    destruct (subprocess_run _ (world st)) as [[cp w']|e] eqn:Hrun; simpl in Hp;
      [|discriminate].
    specialize (Hkept cp w' eq_refl p' c' Hin Hc' Hne).
    destruct (returncode cp =? 0)%Z; simpl in Hp; injection Hp as <-; exact Hkept.
  - injection Hp as <-. split; reflexivity.
Qed.

(** C8, as the code has it. Two candidates whose guids are distinct
    strings without a slash have distinct output paths, each the library
    directory followed by [ImportCache] and [<guid>.ktx2]; so the encoder
    run for the first is given, after [-output_file], another file than
    the second record's cache entry, and when that run leaves alone the
    cache entries that the scan files under other paths than the one it
    was given, processing the first record leaves the second's cache entry
    as it was. *)
Theorem simple_guids_distinct_outputs (cfg : Config) (tree : Tree) (p1 p2 : Path)
    (c1 c2 : Candidate) (g1 g2 : string) :
  candidate tree (cache_dir cfg) p1 = Ok (Some c1) ->
  candidate tree (cache_dir cfg) p2 = Ok (Some c2) ->
  c_guid c1 = JStr g1 -> c_guid c2 = JStr g2 ->
  PyStr.contains slash g1 = false -> PyStr.contains slash g2 = false ->
  g1 <> g2 ->
  c_output c1 = mkPath (root (library_dir cfg))
                  (parts (library_dir cfg) ++ ["ImportCache"; g1 +:+ ".ktx2"])
  /\ c_output c2 = mkPath (root (library_dir cfg))
                     (parts (library_dir cfg) ++ ["ImportCache"; g2 +:+ ".ktx2"])
  /\ c_output c1 <> c_output c2
  /\ str (c_output c1) <> str (c_output c2)
  /\ (exists args, command_of (basisu cfg) c1
                    = args ++ ["-output_file"; str (c_output c1); "-no_status_output"])
  /\ (forall st st' : run_state,
        In p2 (discovered cfg tree) ->
        process_meta cfg tree p1 st = Ok st' ->
        (forall cp w',
           subprocess_run (command_of (basisu cfg) c1) (world st) = Ok (cp, w') ->
           entries_kept cfg tree c1 (world st) w') ->
        path_exists (world st') (c_output c2) = path_exists (world st) (c_output c2)
        /\ st_mtime (world st') (c_output c2) = st_mtime (world st) (c_output c2)).
Proof.
  intros Hc1 Hc2 Hg1 Hg2 Hs1 Hs2 Hne.
  destruct (candidate_Some _ _ _ _ Hc1) as (m1 & _ & Hk1).
  destruct (candidate_Some _ _ _ _ Hc2) as (m2 & _ & Hk2).
  apply classify_Some in Hk1 as (_ & _ & _ & _ & _ & _ & _ & Ho1 & _).
  apply classify_Some in Hk2 as (_ & _ & _ & _ & _ & _ & _ & Ho2 & _).
  rewrite Hg1, (output_path_simple _ _ Hs1) in Ho1.
  rewrite Hg2, (output_path_simple _ _ Hs2) in Ho2.
  change (cache_dir cfg)
    with (mkPath (root (library_dir cfg)) (parts (library_dir cfg) ++ ["ImportCache"]))
    in Ho1, Ho2.
  simpl in Ho1, Ho2. rewrite <- app_assoc in Ho1, Ho2. simpl in Ho1, Ho2.
  assert (Hstr : str (c_output c1) <> str (c_output c2)).
  { rewrite Ho1, Ho2.
    destruct (str_snoc (root (library_dir cfg)) (parts (library_dir cfg) ++ ["ImportCache"]))
      as (pre & Hstr).
    assert (Hsnoc : forall y : string,
               parts (library_dir cfg) ++ ["ImportCache"; y]
               = (parts (library_dir cfg) ++ ["ImportCache"]) ++ [y])
      by (intros y; now rewrite <- app_assoc).
    rewrite !Hsnoc.
    rewrite !Hstr.
    - intros E. apply append_inv_head, append_inv_tail in E. contradiction.
    - intros E. apply (f_equal String.length) in E. rewrite length_append in E.
      simpl in E. lia.
    - intros E. apply (f_equal String.length) in E. rewrite length_append in E.
      simpl in E. lia. }
  split; [exact Ho1|]. split; [exact Ho2|].
  split; [intros E; apply Hstr; now rewrite E|].
  split; [exact Hstr|].
  split.
  { exists ([ str (basisu cfg); "-ktx2"; "-ktx2_no_zstandard";
                if c_normal_map c1 then "-uastc" else "-etc1s";
                if c_srgb c1 then "-srgb" else "-linear" ]
             ++ (if c_flip_y c1 then ["-y_flip"] else [])
             ++ (if c_generate_mips c1 then ["-mipmap"] else [])
             ++ [ "-quality"; if c_normal_map c1 then "50" else "80";
                  "-effort"; "4"; "-file"; str (c_asset c1) ]).
    unfold command_of, build_command.
    destruct (c_flip_y c1), (c_generate_mips c1); reflexivity. }
  intros st st' Hin Hp Hkept.
  apply (process_meta_entries_kept cfg tree p1 p2 c1 c2 st st' Hc1 Hp Hkept Hin Hc2).
  intros E. apply Hstr. now rewrite E.
Qed.

End Outputs.

(** ** Two runs in a row *)

Section Idempotence.
Context {W : Type} `{RT : Runtime W}.

Lemma scan_metas_app (cfg : Config) (tree : Tree) (l1 l2 : list Path) (st : run_state) :
  scan_metas cfg tree (l1 ++ l2) st
  = (st' <- scan_metas cfg tree l1 st ;; scan_metas cfg tree l2 st').
Proof.
  revert st. induction l1 as [|p l1 IH]; intros st; simpl; [reflexivity|].
  destruct (process_meta cfg tree p st); simpl; [apply IH | reflexivity].
Qed.

(** When the outer loop raises nothing of its own, it is the inner loop
    over the files found. *)
Lemma scan_dirs_listed (cfg : Config) (tree : Tree) (dirs : list Path) :
  Forall (listed tree) dirs ->
  forall st : run_state,
    scan_dirs cfg tree dirs st
    = scan_metas cfg tree
        (flat_map (fun d => match dir_exists tree d with
                            | Ok true => rglob_cmeta tree d
                            | _ => []
                            end) dirs) st.
Proof.
  induction dirs as [|d dirs IH]; intros Hl st; simpl; [reflexivity|].
  apply Forall_cons_iff in Hl as [[Hd|[Hd Hr]] Hl]; rewrite Hd; simpl.
  - apply IH. exact Hl.
  - rewrite Hr, scan_metas_app.
    destruct (scan_metas cfg tree (rglob_cmeta tree d) st); simpl; [|reflexivity].
    apply IH. exact Hl.
Qed.

(** A scan that came to its end has seen each directory check return and
    each walk end, and has processed the files found. *)
Lemma scan_dirs_Ok (cfg : Config) (tree : Tree) (dirs : list Path) :
  forall st st' : run_state,
    scan_dirs cfg tree dirs st = Ok st' ->
    Forall (listed tree) dirs
    /\ scan_metas cfg tree
         (flat_map (fun d => match dir_exists tree d with
                             | Ok true => rglob_cmeta tree d
                             | _ => []
                             end) dirs) st = Ok st'.
Proof.
  induction dirs as [|d dirs IH]; intros st st' Hscan; simpl in Hscan.
  - split; [constructor | exact Hscan].
  - apply bind_Ok in Hscan as (there & Hd & Hscan). simpl. rewrite Hd.
    destruct there; simpl in Hscan.
    + apply bind_Ok in Hscan as (s1 & Hs1 & Hscan).
      destruct (rglob_raises tree d) eqn:Hr; [discriminate|].
      destruct (IH _ _ Hscan) as [Hl Hrest].
      split; [constructor; [right; split; [exact Hd | exact Hr] | exact Hl]|].
      rewrite scan_metas_app, Hs1. exact Hrest.
    + destruct (IH _ _ Hscan) as [Hl Hrest].
      split; [constructor; [left; exact Hd | exact Hl] | exact Hrest].
Qed.

Lemma reaches_head (cfg : Config) (tree : Tree) (p : Path) (rest : list Path)
    (st : run_state) :
  reaches cfg tree (p :: rest) st st p.
Proof. exists [], rest. split; reflexivity. Qed.

Lemma reaches_tail (cfg : Config) (tree : Tree) (p q : Path) (rest : list Path)
    (st st1 s : run_state) :
  process_meta cfg tree p st = Ok st1 ->
  reaches cfg tree rest st1 s q ->
  reaches cfg tree (p :: rest) st s q.
Proof.
  intros Hp (l1 & l2 & -> & Hscan). exists (p :: l1), l2.
  split; [reflexivity|]. simpl. rewrite Hp. exact Hscan.
Qed.

Lemma up_to_date_skips (w : W) (c : Candidate) :
  up_to_date w c <-> should_encode w (c_asset c) (c_output c) = Ok false.
Proof.
  unfold up_to_date, should_encode. split.
  - intros (-> & to & ta & -> & -> & Hle). simpl. f_equal. apply Z.ltb_ge. exact Hle.
  - destruct (path_exists w (c_output c)) as [[|]|e]; simpl; try discriminate.
    destruct (st_mtime w (c_output c)) as [to|]; [|discriminate].
    destruct (st_mtime w (c_asset c)) as [ta|]; [|discriminate].
    intros [= Hlt]. apply Z.ltb_ge in Hlt. split; [reflexivity|]. eauto.
Qed.

Lemma candidate_ldr (tree : Tree) (cache p : Path) (c : Candidate) :
  candidate tree cache p = Ok (Some c) -> ldr_candidate cache c.
Proof.
  intros Hc. destruct (candidate_Some _ _ _ _ Hc) as (m & _ & Hk).
  apply classify_Some in Hk as (_ & _ & _ & _ & _ & _ & Hext & Hout & _).
  split; assumption.
Qed.

Lemma ldr_candidate_asset (cache cache' : Path) (c c' : Candidate) :
  ldr_candidate cache c -> ldr_candidate cache' c' ->
  str (c_asset c) <> str (c_output c').
Proof.
  intros [Hext _] [_ Hout]. rewrite Hout. unfold output_path.
  apply ldr_asset_not_output. exact Hext.
Qed.






End Idempotence.

Section SecondRun.
Context {W : Type} `{RT : Runtime W}.

(** The run after: candidates that are up to date are counted as
    skipped, and nothing else happens. *)
Lemma scan_metas_all_skipped (cfg : Config) (tree : Tree) (metas : list Path) :
  forall st : run_state,
    Forall (fun p => exists oc, candidate tree (cache_dir cfg) p = Ok oc
              /\ forall c, oc = Some c -> up_to_date (world st) c) metas ->
    scan_metas cfg tree metas st
    = Ok (mkState (encoded st)
            (skipped st + length (List.filter (is_candidate cfg tree) metas))
            (world st) (trace st)).
Proof.
  induction metas as [|p metas IH]; intros st Hall; simpl.
  - rewrite Nat.add_0_r. destruct st; reflexivity.
  - apply Forall_cons_iff in Hall as [(oc & Hc & Hup) Hall].
    assert (Hcand : is_candidate cfg tree p = match oc with Some _ => true | None => false end).
    { unfold is_candidate. rewrite Hc. reflexivity. }
    rewrite Hcand. unfold process_meta. rewrite Hc. simpl.
    destruct oc as [c|]; simpl.
    + unfold encode. rewrite (proj1 (up_to_date_skips _ _) (Hup c eq_refl)). simpl.
      rewrite IH; [|exact Hall]. simpl. do 2 f_equal. lia.
    + apply IH. exact Hall.
Qed.


End SecondRun.

(** The working encoder of [Demo] does what [successes_hold] says, in
    every world and for every candidate. *)
Lemma demo_io_of (enc asset out : Path) (s n f g : bool) :
  Demo.io_of (build_command enc asset out s n f g) = Some (str asset, str out).
Proof. destruct f, g; reflexivity. Qed.

Lemma demo_run (enc : Path) (c : Candidate) (w w' : Demo.disk) (cp : CompletedProcess) :
  @subprocess_run _ Demo.working (command_of enc c) w = Ok (cp, w') ->
  (exists t, Demo.stamp w (str (c_asset c)) = Some t
             /\ returncode cp = 0%Z /\ w' = (str (c_output c), t) :: w)
  \/ (returncode cp = 1%Z /\ w' = w).
Proof.
  simpl. unfold Demo.basisu_ok, command_of. rewrite demo_io_of.
  destruct (Demo.stamp w (str (c_asset c))) as [t|]; intros [= <- <-]; [left | right]; eauto.
Qed.

Lemma demo_entries_kept (cfg : Config) (tree : Tree) (c : Candidate)
    (w w' : Demo.disk) (cp : CompletedProcess) :
  @subprocess_run _ Demo.working (command_of (basisu cfg) c) w = Ok (cp, w') ->
  @entries_kept _ Demo.working cfg tree c w w'.
Proof.
  intros Hrun p' c' _ _ Hne.
  destruct (demo_run _ _ _ _ _ Hrun) as [(t & _ & _ & ->)|[_ ->]]; [|split; reflexivity].
  unfold path_exists, st_mtime. simpl. unfold Demo.present. simpl.
  destruct (String.eqb_spec (str (c_output c)) (str (c_output c'))) as [E|_];
    [congruence | split; reflexivity].
Qed.

Lemma demo_sources_kept (cfg : Config) (tree : Tree) (p : Path) (c : Candidate)
    (w w' : Demo.disk) (cp : CompletedProcess) :
  @candidate _ Demo.working tree (cache_dir cfg) p = Ok (Some c) ->
  @subprocess_run _ Demo.working (command_of (basisu cfg) c) w = Ok (cp, w') ->
  @sources_kept _ Demo.working cfg tree w w'.
Proof.
  intros Hc Hrun p' c' _ Hc'.
  destruct (demo_run _ _ _ _ _ Hrun) as [(t & _ & _ & ->)|[_ ->]]; [|reflexivity].
  pose proof (ldr_candidate_asset _ _ _ _ (candidate_ldr _ _ _ _ Hc') (candidate_ldr _ _ _ _ Hc))
    as Hne.
  unfold st_mtime. simpl.
  destruct (String.eqb_spec (str (c_output c)) (str (c_asset c'))) as [E|_];
    [congruence | reflexivity].
Qed.



(** ** A run that completes *)

Section Completion.
Context {W : Type} `{RT : Runtime W}.

Lemma py_or_falsy (v d : json) : truthy v = false -> py_or v d = d.
Proof. unfold py_or. intros ->. reflexivity. Qed.

Lemma import_settings_of_empty (fields : gmap string json) (v : json) :
  fields !! "import" = Some v -> py_or v (JObj ∅) = JObj ∅ ->
  import_settings (JObj fields) = Ok (true, false, false, true).
Proof.
  intros Himp Hor. unfold import_settings. simpl. rewrite Himp, Hor. reflexivity.
Qed.

Lemma import_settings_total (fields : gmap string json) :
  match fields !! "import" with
  | None => true
  | Some (JObj imp) =>
      match imp !! "texture" with
      | None => true
      | Some tex => dict_or_falsy tex
      end
  | Some imp => negb (truthy imp)
  end = true ->
  exists s, import_settings (JObj fields) = Ok s.
Proof.
  destruct (fields !! "import") as [imp|] eqn:Himp.
  2:{ intros _. eexists. apply import_settings_no_texture. now left. }
  destruct imp as [| | | | | |imp];
    try (intros Hf; apply negb_true_iff in Hf; eexists;
         apply (import_settings_of_empty _ _ Himp), py_or_falsy, Hf).
  destruct (imp !! "texture") as [tex|] eqn:Htex.
  2:{ intros _. eexists. apply import_settings_no_texture. right. eauto. }
  intros Hshape. unfold import_settings. simpl. rewrite Himp.
  rewrite py_or_empty_dict. simpl. rewrite Htex.
  assert (Hs : exists t, py_or tex (JObj ∅) = JObj t).
  { destruct tex;
      try (exists ∅; apply py_or_falsy, negb_true_iff; exact Hshape).
    eexists. apply py_or_empty_dict. }
  destruct Hs as (t & ->). simpl. eauto.
Qed.

Lemma candidate_total (tree : Tree) (cache p : Path) :
  well_formed_meta tree p = true -> exists oc, candidate tree cache p = Ok oc.
Proof.
  unfold well_formed_meta, candidate. intros Hwf.
  apply andb_true_iff in Hwf as [Hname Hwf]. apply negb_true_iff in Hname.
  destruct (read_json tree p) as [meta|e].
  2:{ destruct e; try discriminate. eauto. }
  destruct meta as [| | | | | |fields]; try discriminate.
  destruct (import_settings_total fields Hwf) as ([[[s n] f] g] & Hs).
  unfold classify. simpl.
  destruct (py_ne_str _ "texture"); [eauto|].
  destruct (truthy _); simpl; [|eauto].
  unfold with_suffix_empty. rewrite Hname. simpl.
  destruct (bool_decide _); simpl; [|eauto].
  rewrite Hs. simpl. eauto.
Qed.

Lemma should_encode_returns (w : W) (asset out : Path) (there : bool) :
  path_exists w out = Ok there -> exists answer, should_encode w asset out = Ok answer.
Proof.
  unfold should_encode. intros ->. simpl. destruct there; simpl; [|eauto].
  destruct (st_mtime w out); [|eauto]. destruct (st_mtime w asset); eauto.
Qed.

Lemma encode_total (enc : Path) (c : Candidate) (st : run_state) :
  (exists there, path_exists (world st) (c_output c) = Ok there) ->
  (should_encode (world st) (c_asset c) (c_output c) = Ok true ->
   exists cp w', subprocess_run (command_of enc c) (world st) = Ok (cp, w')) ->
  exists st', encode enc c st = Ok st'.
Proof.
  intros (there & Hex) Hspawn. unfold encode.
  destruct (should_encode_returns _ (c_asset c) _ _ Hex) as ([|] & Hs); rewrite Hs; simpl;
    [|eauto].
  destruct (Hspawn Hs) as (cp & w' & Hrun). unfold command_of in Hrun. rewrite Hrun. simpl.
  destruct (returncode cp =? 0)%Z; simpl; eauto.
Qed.

Lemma scan_metas_total (cfg : Config) (tree : Tree) (metas : list Path) :
  Forall (fun p => well_formed_meta tree p = true) metas ->
  forall st, calls_return cfg tree metas st ->
    exists st', scan_metas cfg tree metas st = Ok st'.
Proof.
  induction metas as [|p metas IH]; intros Hwf st Hret; simpl; [eauto|].
  apply Forall_cons_iff in Hwf as [Hp Hwf].
  destruct (candidate_total tree (cache_dir cfg) p Hp) as (oc & Hc).
  assert (Hstep : exists st1, process_meta cfg tree p st = Ok st1).
  { unfold process_meta. rewrite Hc. simpl. destruct oc as [c|]; [|eauto].
    destruct (Hret st p c (reaches_head _ _ _ _ _) Hc) as [Hex Hspawn].
    apply encode_total; assumption. }
  destruct Hstep as (st1 & Hstep). rewrite Hstep. simpl.
  apply IH; [exact Hwf|].
  intros s q c Hreach. apply Hret. exact (reaches_tail _ _ _ _ _ _ _ _ Hstep Hreach).
Qed.

(** C10, as the code has it. When the encoder binary is found, and in
    the course of the run no directory check, no directory walk, no
    existence check of an output and no spawn of the encoder raises, and
    every metadata file found is either rejected by the JSON parser or a
    JSON object whose [import] and [import.texture] are falsy or objects,
    [main] ends by printing the summary of its two counters and returns 0,
    whatever the exit statuses of the encoder. *)
Theorem main_summary_exit_zero (cfg : Config) (tree : Tree) (w : W) :
  path_exists w (basisu cfg) = Ok true ->
  Forall (listed tree) (assets_dirs cfg) ->
  Forall (fun p => well_formed_meta tree p = true) (discovered cfg tree) ->
  calls_return cfg tree (discovered cfg tree) (mkState 0 0 w []) ->
  exists st tr,
    main cfg tree w = Ok (0%Z, st)
    /\ trace st = tr ++ [PrintOut (summary st)].
Proof.
  intros Hpre Hlisted Hwf Hret. unfold main. rewrite Hpre. simpl.
  rewrite (scan_dirs_listed cfg tree _ Hlisted).
  destruct (scan_metas_total cfg tree _ Hwf (mkState 0 0 w []) Hret) as (st' & Hscan).
  unfold discovered in Hscan. rewrite Hscan.
  simpl. do 2 eexists. split; reflexivity.
Qed.

End Completion.

Lemma main_summary_exit_zero_witness :
  exists st tr,
    @main _ Demo.failing Demo.cfg Demo.tree_not_json Demo.disk_a = Ok (0%Z, st)
    /\ trace st = tr ++ [PrintOut (summary st)].
Proof.
  apply (@main_summary_exit_zero _ Demo.failing Demo.cfg Demo.tree_not_json Demo.disk_a).
  - reflexivity.
  - constructor; [right; split; reflexivity | constructor].
  - repeat constructor.
  - intros s p c _ _. split; [eexists; reflexivity | intros _; do 2 eexists; reflexivity].
Defined.

(** With the failing encoder every process exits with 2, and the run
    still ends with the summary and status 0. *)
Example all_invocations_fail :
  @main _ Demo.failing Demo.cfg Demo.tree_not_json Demo.disk_a
  = Ok (0%Z, mkState 0 0 Demo.disk_a
          [ Spawn (build_command (parse "/opt/basisu") (parse "/proj/Assets/tex.png")
                     (parse "/proj/Library/ImportCache/abc123.ktx2") true false false true)
                  (mkCompleted 2 "boom");
            PrintErr ("Failed: /proj/Assets/tex.png" +:+ nl +:+ "boom");
            PrintOut "Encoded 0 texture(s), skipped 0." ]).
Proof. vm_compute. reflexivity. Qed.

(** C10 as stated fails: the encoder binary exists, one metadata file
    holds the JSON list [[]]; [meta.get] raises, no summary is printed and
    [main] does not return.  Nor does it with an output or an asset
    directory whose name is too long for the file system, or with an
    encoder that is there and cannot be started. *)
Lemma main_aborts_on_list_metadata :
  @path_exists _ Demo.working Demo.disk_a (basisu Demo.cfg) = Ok true
  /\ @main _ Demo.working Demo.cfg Demo.tree_list Demo.disk_a = Raise AttributeError
  /\ @path_exists _ Demo.posix Demo.disk_a (basisu Demo.cfg) = Ok true
  /\ @main _ Demo.posix Demo.cfg Demo.tree_long Demo.disk_a = Raise OSError
  /\ @main _ Demo.posix Demo.cfg_long Demo.tree_posix Demo.disk_a = Raise OSError
  /\ @path_exists _ Demo.not_executable Demo.disk_a (basisu Demo.cfg) = Ok true
  /\ @main _ Demo.not_executable Demo.cfg Demo.tree_a Demo.disk_a = Raise OSError.
Proof. repeat split; vm_compute; reflexivity. Qed.

(** C6 as stated fails: a metadata file that is not UTF-8, or that holds
    JSON which is not an object, ends the scan with an exception; the
    texture after it is never reached. *)
Lemma unparsable_metadata_raises :
  @scan_metas _ Demo.working Demo.cfg Demo.tree_not_utf8
    [parse "/proj/Assets/bad.png.cmeta"; parse "/proj/Assets/tex.png.cmeta"]
    (mkState 0 0 Demo.disk_a [])
  = Raise UnicodeDecodeError
  /\ @scan_metas _ Demo.working Demo.cfg Demo.tree_list
       [parse "/proj/Assets/bad.png.cmeta"; parse "/proj/Assets/tex.png.cmeta"]
       (mkState 0 0 Demo.disk_a [])
     = Raise AttributeError.
Proof. split; vm_compute; reflexivity. Qed.

Lemma json_decode_error_skipped_witness :
  let st := mkState 0 0 Demo.disk_a [] in
  @process_meta _ Demo.working Demo.cfg Demo.tree_not_json (parse "/proj/Assets/bad.png.cmeta") st
    = Ok st
  /\ @scan_metas _ Demo.working Demo.cfg Demo.tree_not_json
       [parse "/proj/Assets/bad.png.cmeta"; parse "/proj/Assets/tex.png.cmeta"] st
     = @scan_metas _ Demo.working Demo.cfg Demo.tree_not_json
         [parse "/proj/Assets/tex.png.cmeta"] st.
Proof.
  apply (@json_decode_error_skipped _ Demo.working Demo.cfg Demo.tree_not_json
           (parse "/proj/Assets/bad.png.cmeta") [parse "/proj/Assets/tex.png.cmeta"]).
  reflexivity.
Defined.

Lemma nonzero_exit_reported_witness :
  let c := mkCandidate (JStr "abc123") (parse "/proj/Assets/tex.png")
             (parse "/proj/Library/ImportCache/abc123.ktx2") true false false true in
  let cmd := build_command (parse "/opt/basisu") (c_asset c) (c_output c)
               true false false true in
  let st := mkState 0 0 Demo.disk_a [] in
  let st' := mkState 0 0 Demo.disk_a
               [ Spawn cmd (mkCompleted 2 "boom");
                 PrintErr ("Failed: /proj/Assets/tex.png" +:+ nl +:+ "boom") ] in
  @process_meta _ Demo.failing Demo.cfg Demo.tree_a (parse "/proj/Assets/tex.png.cmeta") st
    = Ok st'
  /\ @scan_metas _ Demo.failing Demo.cfg Demo.tree_a [parse "/proj/Assets/tex.png.cmeta"] st
     = @scan_metas _ Demo.failing Demo.cfg Demo.tree_a [] st'.
Proof.
  cbv zeta.
  pose proof (@nonzero_exit_reported _ Demo.failing Demo.cfg Demo.tree_a
                (parse "/proj/Assets/tex.png.cmeta") []
                (mkCandidate (JStr "abc123") (parse "/proj/Assets/tex.png")
                   (parse "/proj/Library/ImportCache/abc123.ktx2") true false false true)
                (mkState 0 0 Demo.disk_a []) (mkCompleted 2 "boom") Demo.disk_a) as H.
  cbv zeta in H. specialize (H eq_refl eq_refl eq_refl).
  destruct H as [H _]. apply H. discriminate.
Defined.


Lemma simple_guids_distinct_outputs_witness :
  let c1 := mkCandidate (JStr "x") (parse "/proj/Assets/a.png")
              (parse "/proj/Library/ImportCache/x.ktx2") true false false true in
  let c2 := mkCandidate (JStr "y") (parse "/proj/Assets/b.png")
              (parse "/proj/Library/ImportCache/y.ktx2") true false false true in
  let st := mkState 0 0 (("/proj/Library/ImportCache/y.ktx2", 9%Z) :: Demo.disk_collide) [] in
  c_output c1 = mkPath "/" ["proj"; "Library"; "ImportCache"; "x.ktx2"]
  /\ c_output c2 = mkPath "/" ["proj"; "Library"; "ImportCache"; "y.ktx2"]
  /\ c_output c1 <> c_output c2
  /\ str (c_output c1) <> str (c_output c2)
  /\ (exists args, @command_of (basisu Demo.cfg) c1
                    = args ++ ["-output_file"; str (c_output c1); "-no_status_output"])
  /\ exists st',
       @process_meta _ Demo.working Demo.cfg Demo.tree_two (parse "/proj/Assets/a.png.cmeta") st
         = Ok st'
       /\ encoded st' = 1
       /\ @st_mtime _ Demo.working (world st') (c_output c1) = Some 5%Z
       /\ @path_exists _ Demo.working (world st') (c_output c2)
          = @path_exists _ Demo.working (world st) (c_output c2)
       /\ @st_mtime _ Demo.working (world st') (c_output c2)
          = @st_mtime _ Demo.working (world st) (c_output c2).
Proof.
  cbv zeta.
  destruct (@simple_guids_distinct_outputs _ Demo.working Demo.cfg Demo.tree_two
              (parse "/proj/Assets/a.png.cmeta") (parse "/proj/Assets/b.png.cmeta")
              (mkCandidate (JStr "x") (parse "/proj/Assets/a.png")
                 (parse "/proj/Library/ImportCache/x.ktx2") true false false true)
              (mkCandidate (JStr "y") (parse "/proj/Assets/b.png")
                 (parse "/proj/Library/ImportCache/y.ktx2") true false false true)
              "x" "y" eq_refl eq_refl eq_refl eq_refl eq_refl eq_refl ltac:(discriminate))
    as (H1 & H2 & H3 & H4 & H5 & H6).
  split; [exact H1|]. split; [exact H2|]. split; [exact H3|]. split; [exact H4|].
  split; [exact H5|].
  eexists. split; [vm_compute; reflexivity|]. split; [reflexivity|]. split; [reflexivity|].
  apply (H6 (mkState 0 0 (("/proj/Library/ImportCache/y.ktx2", 9%Z) :: Demo.disk_collide) [])).
  - simpl. right. left. reflexivity.
  - vm_compute. reflexivity.
  - intros cp w' Hrun. exact (demo_entries_kept _ _ _ _ _ _ Hrun).
Defined.

(** C8 as stated fails: the guids [a] and [./a] differ, both records are
    candidates of one run, and both are given the cache file [a.ktx2]; the
    run encodes both, the second over the first (the file ends stamped 9,
    the stamp of the second source). A guid that is the number 1 and one that is the string [1]
    collide alike. *)
Lemma distinct_guids_same_output :
  (exists c1 c2,
     @candidate _ Demo.working Demo.tree_collide (cache_dir Demo.cfg)
       (parse "/proj/Assets/a.png.cmeta") = Ok (Some c1)
     /\ @candidate _ Demo.working Demo.tree_collide (cache_dir Demo.cfg)
          (parse "/proj/Assets/b.png.cmeta") = Ok (Some c2)
     /\ c_guid c1 = JStr "a" /\ c_guid c2 = JStr "./a"
     /\ c_guid c1 <> c_guid c2
     /\ c_output c1 = c_output c2)
  /\ (exists st,
        @main _ Demo.working Demo.cfg Demo.tree_collide Demo.disk_collide = Ok (0%Z, st)
        /\ encoded st = 2
        /\ @st_mtime _ Demo.working (world st) (parse "/proj/Library/ImportCache/a.ktx2")
           = Some 9%Z)
  /\ (JInt 1 <> JStr "1"
      /\ @output_path _ Demo.working (cache_dir Demo.cfg) (JInt 1)
         = @output_path _ Demo.working (cache_dir Demo.cfg) (JStr "1")).
Proof.
  split; [|split].
  - do 2 eexists. split; [vm_compute; reflexivity|]. split; [vm_compute; reflexivity|].
    simpl. repeat split. discriminate.
  - eexists. split; [vm_compute; reflexivity|]. split; reflexivity.
  - split; [discriminate | vm_compute; reflexivity].
Qed.

(** * Further properties of the scan *)

Section Accounting.
Context {W : Type} `{RT : Runtime W}.

Lemma count_app (f : event -> bool) (l1 l2 : list event) :
  count f (l1 ++ l2) = count f l1 + count f l2.
Proof. unfold count. now rewrite List.filter_app, length_app. Qed.

Lemma encode_balanced (enc : Path) (c : Candidate) (st st' : run_state) :
  encode enc c st = Ok st' -> balanced 1 st st'.
Proof.
  unfold encode, balanced.
  destruct (should_encode _ _ _) as [[|]|e]; simpl; [| |discriminate].
  - destruct (subprocess_run _ _) as [[cp w']|e]; simpl; [|discriminate].
    destruct (returncode cp =? 0)%Z eqn:Hrc; simpl; intros [= <-]; simpl;
      rewrite !count_app; unfold count; simpl; rewrite Hrc; simpl; lia.
  - intros [= <-]. simpl. lia.
Qed.

Lemma scan_metas_balanced (cfg : Config) (tree : Tree) (metas : list Path) :
  forall st st' : run_state,
    scan_metas cfg tree metas st = Ok st' ->
    balanced (length (List.filter (is_candidate cfg tree) metas)) st st'.
Proof.
  induction metas as [|p metas IH]; intros st st' Hscan; simpl in Hscan.
  - injection Hscan as <-. unfold balanced. simpl. lia.
  - apply bind_Ok in Hscan as (st1 & Hstep & Hrest).
    specialize (IH _ _ Hrest). simpl.
    unfold process_meta in Hstep. unfold is_candidate at 1.
    destruct (candidate tree (cache_dir cfg) p) as [[c|]|e]; simpl in Hstep;
      [| |discriminate].
    + apply encode_balanced in Hstep. unfold balanced in *. simpl. lia.
    + injection Hstep as <-. exact IH.
Qed.

(** X1. The two counters of a run that returns 0 agree with what
    happened: [encoded] is the number of encoder processes that exited
    with zero, a failure is printed for each one that did not, and every
    candidate record is either encoded, skipped, or a failed process. *)
Theorem run_accounting (cfg : Config) (tree : Tree) (w : W) (st : run_state) :
  main cfg tree w = Ok (0%Z, st) ->
  encoded st = count exited_zero (trace st)
  /\ count is_print_err (trace st) = count exited_nonzero (trace st)
  /\ encoded st + skipped st + count exited_nonzero (trace st) = candidate_count cfg tree.
Proof.
  unfold main. destruct (path_exists w (basisu cfg)) as [[|]|e]; simpl; try discriminate.
  intros Hrun. apply bind_Ok in Hrun as (st' & Hscan & Hret). injection Hret as <-.
  apply scan_dirs_Ok in Hscan as [_ Hscan]. apply scan_metas_balanced in Hscan.
  unfold balanced, candidate_count, discovered in *. simpl in *.
  rewrite !count_app. unfold count in *. simpl in *. lia.
Qed.




(** X3. When the encoder binary is found, no directory check and no
    directory walk raises, and every metadata file found reads without
    exception and, if it is a candidate, has a cache entry that is there
    and not older than its source, the run spawns nothing, leaves the world
    as it is, counts each candidate as skipped and returns 0 after the
    summary, whatever the encoder would do. *)
Theorem up_to_date_run_is_noop (cfg : Config) (tree : Tree) (w : W) :
  path_exists w (basisu cfg) = Ok true ->
  Forall (listed tree) (assets_dirs cfg) ->
  Forall (fresh cfg tree w) (discovered cfg tree) ->
  main cfg tree w
  = Ok (0%Z, mkState 0 (candidate_count cfg tree) w
               [PrintOut ("Encoded 0 texture(s), skipped "
                            +:+ pretty (candidate_count cfg tree) +:+ ".")]).
Proof.
  intros Hpre Hlisted Hfresh. unfold main. rewrite Hpre. simpl.
  rewrite (scan_dirs_listed cfg tree _ Hlisted).
  pose proof (scan_metas_all_skipped cfg tree _ (mkState 0 0 w []) Hfresh) as Hskip.
  unfold discovered in Hskip. rewrite Hskip. reflexivity.
Qed.

End Accounting.

Section OneStale.
Context {W : Type} `{RT : Runtime W}.

Lemma fresh_apart_fresh (cfg : Config) (tree : Tree) (w : W) (c : Candidate) (l : list Path) :
  Forall (fresh_apart cfg tree w c) l -> Forall (fresh cfg tree w) l.
Proof.
  apply List.Forall_impl. intros q (oc & Hq & Hup). exists oc. split; [exact Hq|].
  intros c' Hc'. apply (Hup c' Hc').
Qed.

(** A run of the encoder for [c] that leaves alone the sources and the
    other cache entries keeps the other records fresh. *)
Lemma fresh_apart_after (cfg : Config) (tree : Tree) (w w' : W) (c : Candidate)
    (l : list Path) :
  (forall q, In q l -> In q (discovered cfg tree)) ->
  sources_kept cfg tree w w' ->
  entries_kept cfg tree c w w' ->
  Forall (fresh_apart cfg tree w c) l -> Forall (fresh cfg tree w') l.
Proof.
  intros Hsub Hsrc Hent Hall. apply List.Forall_forall. intros q Hq.
  destruct (proj1 (List.Forall_forall _ _) Hall q Hq) as (oc & Hcq & Hup).
  exists oc. split; [exact Hcq|].
  intros c' ->. destruct (Hup c' eq_refl) as [(Hex & to & ta & Hto & Hta & Hle) Hne].
  destruct (Hent q c' (Hsub q Hq) Hcq Hne) as [Hex' Hto'].
  pose proof (Hsrc q c' (Hsub q Hq) Hcq) as Hta'.
  unfold up_to_date. rewrite Hex', Hto', Hta'. split; [exact Hex|]. eauto.
Qed.

Lemma scan_one_stale (cfg : Config) (tree : Tree) (l1 l2 : list Path) (p : Path)
    (c : Candidate) (cp : CompletedProcess) (w' : W) (st : run_state) :
  (forall q, In q l2 -> In q (discovered cfg tree)) ->
  candidate tree (cache_dir cfg) p = Ok (Some c) ->
  should_encode (world st) (c_asset c) (c_output c) = Ok true ->
  subprocess_run (command_of (basisu cfg) c) (world st) = Ok (cp, w') ->
  sources_kept cfg tree (world st) w' ->
  entries_kept cfg tree c (world st) w' ->
  Forall (fresh_apart cfg tree (world st) c) (l1 ++ l2) ->
  exists st',
    scan_metas cfg tree (l1 ++ p :: l2) st = Ok st'
    /\ List.filter is_spawn (trace st')
       = List.filter is_spawn (trace st) ++ [Spawn (command_of (basisu cfg) c) cp]
    /\ world st' = w'
    /\ encoded st' = (if (returncode cp =? 0)%Z then S (encoded st) else encoded st)
    /\ skipped st' = skipped st + length (List.filter (is_candidate cfg tree) (l1 ++ l2)).
Proof.
  intros Hsub Hc Hstale Hrun Hsrc Hent Hall.
  apply Forall_app in Hall as [H1 H2].
  pose proof (fresh_apart_after cfg tree _ _ c l2 Hsub Hsrc Hent H2) as H2'.
  apply fresh_apart_fresh in H1.
  rewrite scan_metas_app, (scan_metas_all_skipped cfg tree l1 st H1). simpl.
  unfold process_meta. rewrite Hc. simpl. unfold encode. simpl.
  rewrite Hstale. simpl. unfold command_of in Hrun. rewrite Hrun. simpl.
  rewrite List.filter_app, length_app.
  destruct (returncode cp =? 0)%Z; simpl;
    (rewrite scan_metas_all_skipped; [|exact H2']); simpl;
    eexists; (split; [reflexivity|]); simpl;
    rewrite List.filter_app; simpl; repeat split; lia.
Qed.

(** X4. When exactly one of the records found is stale and every other
    one is up to date and cached under another path, and the run of the
    encoder for the stale record leaves alone the sources and the other
    cache entries, the run spawns the encoder once, for the stale record,
    and counts all the others as skipped, whatever the exit status. *)
Theorem only_stale_reencoded (cfg : Config) (tree : Tree) (w w' : W) (l1 l2 : list Path)
    (p : Path) (c : Candidate) (cp : CompletedProcess) :
  path_exists w (basisu cfg) = Ok true ->
  Forall (listed tree) (assets_dirs cfg) ->
  discovered cfg tree = l1 ++ p :: l2 ->
  candidate tree (cache_dir cfg) p = Ok (Some c) ->
  should_encode w (c_asset c) (c_output c) = Ok true ->
  subprocess_run (command_of (basisu cfg) c) w = Ok (cp, w') ->
  sources_kept cfg tree w w' ->
  entries_kept cfg tree c w w' ->
  Forall (fresh_apart cfg tree w c) (l1 ++ l2) ->
  exists st,
    main cfg tree w = Ok (0%Z, st)
    /\ List.filter is_spawn (trace st) = [Spawn (command_of (basisu cfg) c) cp]
    /\ world st = w'
    /\ encoded st = (if (returncode cp =? 0)%Z then 1 else 0)
    /\ skipped st = length (List.filter (is_candidate cfg tree) (l1 ++ l2)).
Proof.
  intros Hpre Hlisted Hdisc Hc Hstale Hrun Hsrc Hent Hall.
  assert (Hsub : forall q, In q l2 -> In q (discovered cfg tree)).
  { intros q Hq. rewrite Hdisc. apply in_or_app. right. right. exact Hq. }
  destruct (scan_one_stale cfg tree l1 l2 p c cp w' (mkState 0 0 w [])
              Hsub Hc Hstale Hrun Hsrc Hent Hall) as (st' & Hscan & Hsp & Hw & Henc & Hsk).
  unfold main. rewrite Hpre. simpl. rewrite (scan_dirs_listed cfg tree _ Hlisted).
  unfold discovered in Hdisc. rewrite Hdisc, Hscan. simpl.
  eexists. split; [reflexivity|]. simpl.
  rewrite List.filter_app, Hsp. simpl. repeat split; assumption.
Qed.

End OneStale.

Section Paths.
Context {W : Type} `{RT : Runtime W}.

Lemma splitroot_relative (s : string) :
  starts_with_slash s = false -> splitroot s = ("", s).
Proof. destruct s as [|c s]; simpl; [reflexivity|]. intros ->. reflexivity. Qed.

Lemma splitroot_absolute (s : string) :
  starts_with_slash s = true -> fst (splitroot s) <> "".
Proof.
  destruct s as [|c1 [|c2 [|c3 s]]]; simpl; try discriminate; intros ->; simpl;
    try discriminate; destruct (Ascii.eqb c2 slash); simpl; try discriminate.
  destruct (Ascii.eqb c3 slash); discriminate.
Qed.

Lemma starts_with_slash_append (g t : string) :
  g <> "" -> starts_with_slash (g +:+ t) = starts_with_slash g.
Proof. destruct g; [contradiction | reflexivity]. Qed.

(** X5. No candidate's output path is the path of a candidate's source
    image, and its file name ends in [.ktx2]: the encoder is never told
    to write over a source. *)
Theorem output_is_never_a_source (tree : Tree) (cache : Path) (p p' : Path)
    (c c' : Candidate) :
  candidate tree cache p = Ok (Some c) ->
  candidate tree cache p' = Ok (Some c') ->
  str (c_asset c) <> str (c_output c')
  /\ c_asset c <> c_output c'
  /\ exists stem, name (c_output c') = stem +:+ ".ktx2".
Proof.
  intros Hc Hc'.
  pose proof (candidate_ldr _ _ _ _ Hc) as Hldr.
  pose proof (candidate_ldr _ _ _ _ Hc') as Hldr'.
  pose proof (ldr_candidate_asset _ _ _ _ Hldr Hldr') as Hne.
  split; [exact Hne|]. split; [intros E; apply Hne; now rewrite E|].
  destruct Hldr' as [_ ->]. unfold output_path, name.
  destruct (truediv_ktx2_parts cache (format_value (c_guid c'))) as (l & x & ->).
  exists x. apply last_last.
Qed.

(** X6. A guid that starts with a slash takes the output out of the cache
    directory: the output path is the guid with [.ktx2], as an absolute
    path of its own. Any other string guid gives a path that extends the
    cache directory. *)
Theorem absolute_guid_leaves_cache (cfg : Config) (tree : Tree) (p : Path)
    (c : Candidate) (g : string) :
  candidate tree (cache_dir cfg) p = Ok (Some c) ->
  c_guid c = JStr g ->
  (starts_with_slash g = true -> c_output c = parse (g +:+ ".ktx2"))
  /\ (starts_with_slash g = false ->
      root (c_output c) = root (cache_dir cfg)
      /\ exists tail, tail <> [] /\ parts (c_output c) = parts (cache_dir cfg) ++ tail).
Proof.
  intros Hc Hg.
  destruct (candidate_Some _ _ _ _ Hc) as (m & _ & Hk).
  apply classify_Some in Hk as (_ & _ & _ & _ & Htruthy & _ & _ & Hout & _).
  rewrite Hg in Hout, Htruthy. simpl in Htruthy.
  assert (Hne : g <> "") by (intros E; rewrite E in Htruthy; discriminate).
  rewrite Hout. unfold output_path, truediv. simpl.
  pose proof (starts_with_slash_append g ".ktx2" Hne) as Hstart.
  split; intros Hs; rewrite Hs in Hstart.
  - pose proof (splitroot_absolute _ Hstart) as Hroot.
    unfold parse at 1. destruct (splitroot (g +:+ ".ktx2")) as [r rel] eqn:Hsr.
    simpl in *. destruct (String.eqb_spec r "") as [E|_]; [contradiction|].
    unfold parse. rewrite Hsr. reflexivity.
  - unfold parse. rewrite (splitroot_relative _ Hstart). simpl.
    split; [reflexivity|].
    destruct (split_append slash g ".ktx2" eq_refl) as (l & x & _ & Hsplit).
    rewrite Hsplit, List.filter_app. simpl. rewrite kept_ktx2.
    eexists. split; [|reflexivity]. intros E. apply app_eq_nil in E as [_ E]. discriminate.
Qed.

Lemma rfind_append (ch : ascii) (a b : string) :
  PyStr.rfind ch (a +:+ b)
  = match PyStr.rfind ch b with
    | Some i => Some (String.length a + i)
    | None => PyStr.rfind ch a
    end.
Proof.
  induction a as [|x a IH]; simpl.
  - destruct (PyStr.rfind ch b); reflexivity.
  - rewrite IH. destruct (PyStr.rfind ch b); [reflexivity|].
    destruct (PyStr.rfind ch a); reflexivity.
Qed.

Lemma drop_append (a b : string) : PyStr.drop (String.length a) (a +:+ b) = b.
Proof. induction a as [|x a IH]; simpl; [destruct b; reflexivity | exact IH]. Qed.

Lemma take_append (a b : string) : PyStr.take (String.length a) (a +:+ b) = a.
Proof. induction a as [|x a IH]; simpl; [destruct b; reflexivity | now rewrite IH]. Qed.

Lemma name_suffix_cmeta (base : string) :
  base <> "" -> name_suffix (base +:+ ".cmeta") = ".cmeta".
Proof.
  intros Hne. unfold name_suffix. rewrite rfind_append. simpl.
  rewrite Nat.add_0_r, length_append. simpl.
  destruct base as [|x base]; [contradiction|]. simpl String.length.
  replace (0 <? S (String.length base))%nat with true by (symmetry; apply Nat.ltb_lt; lia).
  replace (S (String.length base) <? S (String.length base) + 6 - 1)%nat with true
    by (symmetry; apply Nat.ltb_lt; lia).
  simpl. apply (drop_append base ".cmeta").
Qed.

(** X7. For a metadata file named [<base>.cmeta] the asset of a
    candidate is the sibling named [<base>]: the path of the metadata file
    with nothing but the last [.cmeta] taken off. *)
Theorem asset_path_strips_cmeta (tree : Tree) (cache p : Path) (c : Candidate)
    (base : string) :
  candidate tree cache p = Ok (Some c) ->
  name p = base +:+ ".cmeta" ->
  base <> "" ->
  c_asset c = mkPath (root p) (removelast (parts p) ++ [base])
  /\ name (c_asset c) = base.
Proof.
  intros Hc Hname Hbase.
  destruct (candidate_Some _ _ _ _ Hc) as (m & _ & Hk).
  apply classify_Some in Hk as (_ & _ & _ & _ & _ & Hws & _).
  unfold with_suffix_empty in Hws. rewrite Hname in Hws.
  destruct (String.eqb_spec (base +:+ ".cmeta") "") as [E|_].
  { apply (f_equal String.length) in E. rewrite length_append in E. simpl in E. lia. }
  rewrite (name_suffix_cmeta base Hbase), length_append in Hws. simpl in Hws.
  replace (String.length base + 6 - 6) with (String.length base) in Hws by lia.
  rewrite take_append in Hws. injection Hws as <-.
  split; [reflexivity|]. unfold name. simpl. apply last_last.
Qed.

End Paths.

Section Filters.
Context {W : Type} `{RT : Runtime W}.

(** X8. A record whose asset has an extension outside [LDR_EXTS]
    (compared without case) is dropped, also when it is a texture with a
    guid, and before its import settings are looked at: whatever [import]
    holds, nothing is raised and the run is left as it was found. *)
Theorem other_extension_excluded (cfg : Config) (tree : Tree) (p asset : Path)
    (rest : list Path) (fields : gmap string json) (st : run_state) :
  read_json tree p = Ok (JObj fields) ->
  with_suffix_empty p = Ok asset ->
  PyStr.lower (suffix asset) ∉ LDR_EXTS ->
  process_meta cfg tree p st = Ok st
  /\ scan_metas cfg tree (p :: rest) st = scan_metas cfg tree rest st.
Proof.
  intros Hread Hasset Hext. apply filtered_out.
  unfold candidate. rewrite Hread. unfold classify. simpl.
  destruct (py_ne_str _ "texture"); [reflexivity|].
  destruct (truthy _); simpl; [|reflexivity].
  rewrite Hasset. simpl.
  destruct (bool_decide (PyStr.lower (suffix asset) ∈ LDR_EXTS)) eqn:Hdec;
    [|reflexivity].
  apply bool_decide_eq_true in Hdec. contradiction.
Qed.

(** X9. A setting that is present in [import.texture] counts by its
    truthiness, whatever its JSON type, and its default plays no part:
    [null], [0], an empty string or an empty list turn [srgb] and
    [generateMipmaps] off. *)
Theorem present_setting_is_its_truthiness (fields imp tex : gmap string json) :
  fields !! "import" = Some (JObj imp) ->
  imp !! "texture" = Some (JObj tex) ->
  exists srgb normal_map flip_y generate_mips,
    import_settings (JObj fields) = Ok (srgb, normal_map, flip_y, generate_mips)
    /\ (forall v, tex !! "srgb" = Some v -> srgb = truthy v)
    /\ (forall v, tex !! "normalMap" = Some v -> normal_map = truthy v)
    /\ (forall v, tex !! "flipY" = Some v -> flip_y = truthy v)
    /\ (forall v, tex !! "generateMipmaps" = Some v -> generate_mips = truthy v).
Proof.
  intros Himp Htex. do 4 eexists.
  split; [exact (import_settings_of_dict fields imp tex Himp Htex)|].
  unfold setting. repeat split; intros v ->; reflexivity.
Qed.

(** X10. A record that passes the type, guid and extension filters and
    whose [import], or whose [import.texture], is truthy without being an
    object (a string, a number, a non-empty list) ends the scan with
    [AttributeError]: the files after it are not read. *)
Theorem import_not_an_object_raises (cfg : Config) (tree : Tree) (p asset : Path)
    (rest : list Path) (fields : gmap string json) (guid v : json) (st : run_state) :
  read_json tree p = Ok (JObj fields) ->
  fields !! "type" = Some (JStr "texture") ->
  fields !! "guid" = Some guid -> truthy guid = true ->
  with_suffix_empty p = Ok asset ->
  PyStr.lower (suffix asset) ∈ LDR_EXTS ->
  truthy v = true -> (forall m, v <> JObj m) ->
  fields !! "import" = Some v
  \/ (exists imp, fields !! "import" = Some (JObj imp) /\ imp !! "texture" = Some v) ->
  scan_metas cfg tree (p :: rest) st = Raise AttributeError.
Proof.
  intros Hread Hty Hguid Htr Hasset Hext Hv Hnd Hcase.
  assert (Hset : import_settings (JObj fields) = Raise AttributeError).
  { unfold import_settings. simpl.
    destruct Hcase as [Himp|(imp & Himp & Htex)]; rewrite Himp.
    - unfold py_or. rewrite Hv.
      destruct v as [| | | | | |m]; try reflexivity. now destruct (Hnd m).
    - rewrite py_or_empty_dict. simpl. rewrite Htex. unfold py_or. rewrite Hv.
      destruct v as [| | | | | |m]; try reflexivity. now destruct (Hnd m). }
  simpl. unfold process_meta, candidate. rewrite Hread. unfold classify. simpl.
  rewrite Hty. simpl. rewrite Hguid, Htr. simpl. rewrite Hasset. simpl.
  rewrite (bool_decide_eq_true_2 _ Hext). simpl. rewrite Hset. reflexivity.
Qed.

End Filters.

(** X11. The command line tells its inputs apart: two calls of
    [build_command] that return the same list were given the same four
    settings and paths that print alike. *)
Theorem build_command_injective (enc asset out enc' asset' out' : Path)
    (s n f g s' n' f' g' : bool) :
  build_command enc asset out s n f g = build_command enc' asset' out' s' n' f' g' ->
  str enc = str enc' /\ str asset = str asset' /\ str out = str out'
  /\ s = s' /\ n = n' /\ f = f' /\ g = g'.
Proof.
  unfold build_command. intros H.
  destruct s, n, f, g, s', n', f', g'; simpl in H;
    try discriminate; injection H as H1 H2 H3; repeat split; assumption.
Qed.

(** * Properties of the lines before the scan *)

Example code_points_ascii : PyText.code_points "a/b" = ["a"; "/"; "b"].
Proof. reflexivity. Qed.

Example code_points_utf8 :
  PyText.code_points "é/x" = ["é"; "/"; "x"] /\ String.length "é" = 2.
Proof. split; reflexivity. Qed.

Example endswith_cproj :
  PyText.endswith (PyStr.lower "GAME.CPROJ") ".cproj" = true
  /\ PyText.endswith "" ".cproj" = false /\ PyText.endswith "cproj" ".cproj" = false.
Proof. repeat split. Qed.

Lemma truediv_absolute_string (p : Path) (s : string) :
  starts_with_slash s = true -> truediv p s = parse s.
Proof.
  intros Hs. pose proof (splitroot_absolute s Hs) as Hroot.
  unfold truediv, parse in *. destruct (splitroot s) as [r rel]. simpl in *.
  destruct (String.eqb_spec r "") as [E|_]; [contradiction | reflexivity].
Qed.

Lemma truediv_relative_string (p : Path) (s : string) :
  starts_with_slash s = false ->
  truediv p s = mkPath (root p) (parts p ++ parts (parse s)).
Proof.
  intros Hs. unfold truediv, parse. rewrite (splitroot_relative s Hs). reflexivity.
Qed.

Lemma truediv_component (p : Path) (x : string) :
  PyStr.contains slash x = false -> kept x = true ->
  truediv p x = mkPath (root p) (parts p ++ [x]).
Proof.
  intros Hx Hk.
  assert (Hs : starts_with_slash x = false).
  { destruct x as [|c x]; [reflexivity|]. simpl in *. now apply orb_false_iff in Hx as [-> _]. }
  rewrite (truediv_relative_string p x Hs). unfold parse.
  rewrite (splitroot_relative x Hs), (split_no_sep _ _ Hx). simpl. now rewrite Hk.
Qed.

Lemma parent_truediv_component (p : Path) (x : string) :
  PyStr.contains slash x = false -> kept x = true -> parent (truediv p x) = p.
Proof.
  intros Hx Hk. rewrite (truediv_component p x Hx Hk). unfold parent. simpl.
  rewrite removelast_last. destruct p; reflexivity.
Qed.

Section SetupFacts.
Context {W : Type} `{RT : Runtime W} `{HO : Host W}.

Lemma join_all_strings (r : Path) (names : list string) :
  join_all r (map JStr names) = Done (map (truediv r) names).
Proof. induction names as [|n names IH]; simpl; [reflexivity | now rewrite IH]. Qed.

Lemma join_all_not_string (r : Path) (items : list json) :
  Exists (fun v => forall s, v <> JStr s) items -> join_all r items = Failed TypeError.
Proof.
  induction 1 as [v items Hv | v items _ IH]; simpl.
  - destruct v; try reflexivity. now destruct (Hv s).
  - destruct v; try reflexivity. simpl. now rewrite IH.
Qed.

(** X12. The empty path that [find_project_file] returns for "not found"
    is returned in one case only: when both checks return and the argument
    is neither a file named [*.cproj] (in any case of letters) nor has a
    [Project.cproj] in it.  A check that raises ends [find_project_file]
    with its exception. *)
Theorem find_project_file_not_found (w : W) (r : Path) :
  (find_project_file w r = Ok (mkPath "" [])
   <-> exists is_file,
         os_isfile w (str r) = Ok is_file
         /\ is_file && PyText.endswith (PyStr.lower (name r)) ".cproj" = false
         /\ path_exists w (truediv r "Project.cproj") = Ok false)
  /\ (forall e, os_isfile w (str r) = Raise e -> find_project_file w r = Raise e)
  /\ (forall is_file e,
        os_isfile w (str r) = Ok is_file ->
        is_file && PyText.endswith (PyStr.lower (name r)) ".cproj" = false ->
        path_exists w (truediv r "Project.cproj") = Raise e ->
        find_project_file w r = Raise e).
Proof.
  unfold find_project_file.
  rewrite (truediv_component r "Project.cproj" eq_refl eq_refl).
  split; [|split].
  - destruct (os_isfile w (str r)) as [f|e]; simpl.
    2:{ split; [discriminate | intros (f & Hf & _); discriminate]. }
    destruct (f && PyText.endswith (PyStr.lower (name r)) ".cproj") eqn:Hfile.
    + split.
      * intros [= ->]. apply andb_true_iff in Hfile as [_ Hend]. discriminate.
      * intros (f' & [= <-] & Hf & _). congruence.
    + destruct (path_exists w _) as [[|]|e]; simpl; split.
      * intros [= _ E]. apply app_eq_nil in E as [_ E]. discriminate.
      * intros (f' & _ & _ & Hex). discriminate.
      * intros _. exists f. auto.
      * reflexivity.
      * discriminate.
      * intros (f' & _ & _ & Hex). discriminate.
  - intros e ->. reflexivity.
  - intros f e -> Hf Hex. simpl. rewrite Hf, Hex. reflexivity.
Qed.

(** X13. For a project directory [r] that holds [Project.cproj], and a
    project file without [assetPaths] (or with a falsy one) and without
    [library], the project file is [r/Project.cproj], the one asset
    directory is [r/Assets], the library is [r/Library] and the cache
    directory [r/Library/ImportCache]. *)
Theorem default_layout (w : W) (r enc : Path) (fields : gmap string json) (is_file : bool) :
  os_isfile w (str r) = Ok is_file ->
  is_file && PyText.endswith (PyStr.lower (name r)) ".cproj" = false ->
  path_exists w (truediv r "Project.cproj") = Ok true ->
  fields !! "assetPaths" = None
  \/ (exists v, fields !! "assetPaths" = Some v /\ truthy v = false) ->
  fields !! "library" = None ->
  exists project_file,
    find_project_file w r = Ok project_file
    /\ project_file = mkPath (root r) (parts r ++ ["Project.cproj"])
    /\ resolve_paths project_file (JObj fields)
       = Done ([mkPath (root r) (parts r ++ ["Assets"])],
               mkPath (root r) (parts r ++ ["Library"]))
    /\ cache_dir (mkConfig [mkPath (root r) (parts r ++ ["Assets"])]
                           (mkPath (root r) (parts r ++ ["Library"])) enc)
       = mkPath (root r) (parts r ++ ["Library"; "ImportCache"]).
Proof.
  intros Hisfile Hfile Hex Hassets Hlib.
  assert (Hfind : find_project_file w r = Ok (truediv r "Project.cproj")).
  { unfold find_project_file. rewrite Hisfile. simpl. rewrite Hfile, Hex. reflexivity. }
  exists (truediv r "Project.cproj"). split; [exact Hfind|].
  split; [apply (truediv_component r "Project.cproj" eq_refl eq_refl)|]. split.
  - unfold resolve_paths.
    rewrite (parent_truediv_component r "Project.cproj" eq_refl eq_refl). simpl.
    assert (Ha : py_or (match fields !! "assetPaths" with Some x => x | None => JNull end)
                   (JArr [JStr "Assets"]) = JArr [JStr "Assets"]).
    { destruct Hassets as [->|(v & -> & Hv)]; [reflexivity|]. unfold py_or. now rewrite Hv. }
    rewrite Ha, Hlib. simpl.
    rewrite (truediv_component r "Assets" eq_refl eq_refl).
    rewrite (truediv_component r "Library" eq_refl eq_refl). reflexivity.
  - unfold cache_dir. simpl.
    rewrite (truediv_component _ "ImportCache" eq_refl eq_refl). simpl.
    now rewrite <- app_assoc.
Qed.

(** X14. When [assetPaths] is a non-empty list of strings and [library]
    a string, there is one asset directory for each entry, in the order of
    the list, each joined to the directory of the project file as the
    library is: an entry that starts with a slash stands for itself,
    outside the project, any other one extends the project directory. *)
Theorem asset_paths_in_order (pf : Path) (fields : gmap string json)
    (names : list string) (lib : string) :
  fields !! "assetPaths" = Some (JArr (map JStr names)) ->
  names <> [] ->
  fields !! "library" = Some (JStr lib) ->
  resolve_paths pf (JObj fields)
  = Done (map (truediv (parent pf)) names, truediv (parent pf) lib)
  /\ Forall (fun n =>
               (starts_with_slash n = true -> truediv (parent pf) n = parse n)
               /\ (starts_with_slash n = false ->
                   root (truediv (parent pf) n) = root (parent pf)
                   /\ exists tail, parts (truediv (parent pf) n) = parts (parent pf) ++ tail))
            names.
Proof.
  intros Hassets Hne Hlib. split.
  - unfold resolve_paths. simpl. rewrite Hassets, Hlib.
    unfold py_or. simpl. destruct names as [|n names]; [contradiction|]. simpl.
    change (JStr n :: map JStr names) with (map JStr (n :: names)).
    rewrite join_all_strings. reflexivity.
  - apply Forall_forall. intros n _. split; intros Hs.
    + apply truediv_absolute_string, Hs.
    + rewrite (truediv_relative_string _ _ Hs). simpl. eauto.
Qed.

(** X15. [resolve_paths] raises on a project file of another shape:
    [AttributeError] when the file does not hold an object; [TypeError]
    when [assetPaths] is a number or [true], when it is a list with an
    entry that is not a string, and when [library] is present without being
    a string, [null] included, which for [assetPaths] means the default. *)
Theorem resolve_paths_errors (pf : Path) :
  (forall data, (forall m, data <> JObj m) ->
     resolve_paths pf data = Failed (Exn AttributeError))
  /\ (forall fields v,
        fields !! "assetPaths" = Some v -> truthy v = true ->
        match v with JInt _ | JFloat _ | JBool _ => True | _ => False end ->
        resolve_paths pf (JObj fields) = Failed TypeError)
  /\ (forall fields items,
        fields !! "assetPaths" = Some (JArr items) ->
        Exists (fun v => forall s, v <> JStr s) items ->
        resolve_paths pf (JObj fields) = Failed TypeError)
  /\ (forall fields v,
        fields !! "assetPaths" = None ->
        fields !! "library" = Some v -> (forall s, v <> JStr s) ->
        resolve_paths pf (JObj fields) = Failed TypeError).
Proof.
  split; [|split; [|split]].
  - intros data Hd. unfold resolve_paths.
    destruct data as [| | | | | |m]; try reflexivity. now destruct (Hd m).
  - intros fields v Ha Hv Hkind. unfold resolve_paths. simpl. rewrite Ha.
    unfold py_or. rewrite Hv. destruct v; try contradiction; reflexivity.
  - intros fields items Ha Hex. unfold resolve_paths. simpl. rewrite Ha.
    unfold py_or. destruct items as [|v items]; [inversion Hex|]. simpl truthy. cbv iota.
    unfold iterate. cbn [and_then]. rewrite (join_all_not_string _ _ Hex). reflexivity.
  - intros fields v Ha Hl Hv. unfold resolve_paths. simpl. rewrite Ha, Hl. simpl.
    destruct v; try reflexivity. now destruct (Hv s).
Qed.

Lemma code_points_length (s : string) :
  Forall (fun c => PyText.is_continuation c = false) (list_ascii_of_string s) ->
  length (PyText.code_points s) = String.length s.
Proof.
  induction s as [|c s IH]; simpl; [reflexivity|].
  intros Hall. apply Forall_cons_iff in Hall as [_ Hall]. specialize (IH Hall).
  destruct s as [|d s]; [reflexivity|].
  apply Forall_cons_iff in Hall as [Hd _].
  destruct (PyText.code_points (String d s)) eqn:E; simpl in *; [lia|].
  rewrite Hd. simpl. lia.
Qed.

(** X16. An [assetPaths] that is one string, where a list of strings is
    meant, is taken apart: there is one asset directory for each character
    of the string, so as many as the string is long when it is ASCII. *)
Theorem asset_paths_string_is_split (pf : Path) (fields : gmap string json) (s : string) :
  fields !! "assetPaths" = Some (JStr s) ->
  s <> "" ->
  fields !! "library" = None ->
  exists dirs,
    resolve_paths pf (JObj fields) = Done (dirs, truediv (parent pf) "Library")
    /\ dirs = map (truediv (parent pf)) (PyText.code_points s)
    /\ (Forall (fun c => PyText.is_continuation c = false) (list_ascii_of_string s) ->
        length dirs = String.length s).
Proof.
  intros Ha Hne Hlib. eexists. split; [|split; [reflexivity|]].
  - unfold resolve_paths. simpl. rewrite Ha, Hlib. unfold py_or. simpl.
    destruct (String.eqb_spec s "") as [E|_]; [contradiction|]. simpl.
    rewrite join_all_strings. reflexivity.
  - intros Hascii. rewrite length_map. now apply code_points_length.
Qed.

(** X17. Without [--basisu] the encoder is looked for beside the
    directory of the script: for a script [<top>/<dir>/<file>] it is
    [<top>/ThirdParty/basisu/basisu]. *)
Theorem default_encoder_path (top : list string) (dir file : string) :
  parts script_file = top ++ [dir; file] ->
  basisu_path_from_script
  = mkPath (root script_file) (top ++ ["ThirdParty"; "basisu"; "basisu"]).
Proof.
  intros Hparts. unfold basisu_path_from_script, parent. simpl. rewrite Hparts.
  replace (top ++ [dir; file]) with ((top ++ [dir]) ++ [file]) by now rewrite <- app_assoc.
  rewrite !removelast_last.
  rewrite (truediv_component _ "ThirdParty" eq_refl eq_refl).
  rewrite !(truediv_component _ "basisu" eq_refl eq_refl). simpl.
  now rewrite <- !app_assoc.
Qed.

(** X18. A project that is not found is not reported: the test of line
    90 never holds, since a path object is always true. With the empty
    path for a project file [main] goes on to load ["."], and ends with the
    exception of that; and a run that returns 1 has printed that the
    encoder binary is missing, nothing else. *)
Theorem missing_project_is_not_reported (args : Args) (tree : Tree) (w : W) :
  (forall e,
     find_project_file w (os_resolve w (parse (project args))) = Ok (mkPath "" []) ->
     os_load_json w "." = Raise e ->
     Cli.main args tree w = Failed (Exn e))
  /\ (forall st,
        Cli.main args tree w = Done (1%Z, st) ->
        exists enc, trace st = [PrintErr ("basisu binary not found: " +:+ str enc)]).
Proof.
  split.
  - intros e Hfind Hload. unfold Cli.main. rewrite Hfind. simpl.
    unfold load_project. simpl. change (str (mkPath "" [])) with ".".
    rewrite Hload. reflexivity.
  - intros st. unfold Cli.main. simpl.
    destruct (find_project_file w _) as [pf|e]; simpl; [|discriminate].
    destruct (lift (load_project w _)) as [data|f]; simpl; [|discriminate].
    destruct (resolve_paths _ data) as [[dirs lib]|f]; simpl; [|discriminate].
    destruct (lift (os_makedirs w _)) as [w1|f]; simpl; [|discriminate].
    set (enc := if negb (String.eqb (basisu_option args) "") then _ else _).
    unfold main. simpl. destruct (path_exists w1 enc) as [[|]|e]; simpl; [| |discriminate].
    + destruct (scan_dirs _ tree dirs _); simpl; discriminate.
    + intros [= <-]. exists enc. reflexivity.
Qed.

End SetupFacts.

(** * The further properties on concrete worlds *)

Example demo2_final :
  encoded Demo2.final = 1 /\ skipped Demo2.final = 1
  /\ count exited_nonzero (trace Demo2.final) = 1
  /\ @candidate_count _ Demo.working Demo.cfg Demo2.tree = 3.
Proof. repeat split. Qed.

Lemma run_accounting_witness :
  encoded Demo2.final = count exited_zero (trace Demo2.final)
  /\ count is_print_err (trace Demo2.final) = count exited_nonzero (trace Demo2.final)
  /\ encoded Demo2.final + skipped Demo2.final + count exited_nonzero (trace Demo2.final)
     = @candidate_count _ Demo.working Demo.cfg Demo2.tree.
Proof.
  apply (@run_accounting _ Demo.working Demo.cfg Demo2.tree Demo2.disk Demo2.final).
  vm_compute. reflexivity.
Defined.


Lemma demo_up_to_date_b : @up_to_date _ Demo.working Demo2.disk Demo2.candidate_b.
Proof. split; [reflexivity|]. exists 4%Z, 3%Z. repeat split. lia. Qed.

Lemma demo_listed (dir : string) (files : list (string * result json)) :
  Forall (listed (Demo.tree_of dir files)) (assets_dirs Demo.cfg).
Proof.
  constructor; [|constructor]. unfold listed, Demo.tree_of. cbn [dir_exists rglob_raises].
  match goal with
  | |- context [String.eqb ?a ?b] => destruct (String.eqb a b)
  end; [right | left]; auto.
Qed.

Lemma up_to_date_run_is_noop_witness :
  @main _ Demo.working Demo.cfg
    (Demo.tree_of "/proj/Assets"
       [("/proj/Assets/b.png.cmeta", Ok (Demo.texture (JStr "gb") (JObj ∅)))])
    Demo2.disk
  = Ok (0%Z, mkState 0 1 Demo2.disk [PrintOut "Encoded 0 texture(s), skipped 1."]).
Proof.
  pose proof (@up_to_date_run_is_noop _ Demo.working Demo.cfg
                (Demo.tree_of "/proj/Assets"
                   [("/proj/Assets/b.png.cmeta", Ok (Demo.texture (JStr "gb") (JObj ∅)))])
                Demo2.disk eq_refl (demo_listed _ _)) as H.
  assert (Hfresh : Forall (@fresh _ Demo.working Demo.cfg
                             (Demo.tree_of "/proj/Assets"
                                [("/proj/Assets/b.png.cmeta",
                                  Ok (Demo.texture (JStr "gb") (JObj ∅)))])
                             Demo2.disk)
                     [parse "/proj/Assets/b.png.cmeta"]).
  { constructor; [|constructor].
    exists (Some Demo2.candidate_b). split; [reflexivity|].
    intros c [= <-]. exact demo_up_to_date_b. }
  specialize (H Hfresh). vm_compute in H. vm_compute. exact H.
Defined.

Lemma only_stale_reencoded_witness :
  exists st,
    @main _ Demo.working Demo.cfg Demo2.tree_ab Demo2.disk = Ok (0%Z, st)
    /\ List.filter is_spawn (trace st)
       = [Spawn (@command_of (parse "/opt/basisu") Demo2.candidate_a) (mkCompleted 0 "")]
    /\ world st = ("/proj/Library/ImportCache/ga.ktx2", 9%Z) :: Demo2.disk
    /\ encoded st = 1
    /\ skipped st = 1.
Proof.
  apply (@only_stale_reencoded _ Demo.working Demo.cfg Demo2.tree_ab Demo2.disk
           (("/proj/Library/ImportCache/ga.ktx2", 9%Z) :: Demo2.disk)
           [] [parse "/proj/Assets/b.png.cmeta"] (parse "/proj/Assets/a.png.cmeta")
           Demo2.candidate_a (mkCompleted 0 "")).
  - reflexivity.
  - exact (demo_listed _ _).
  - reflexivity.
  - reflexivity.
  - reflexivity.
  - reflexivity.
  - apply (demo_sources_kept Demo.cfg Demo2.tree_ab (parse "/proj/Assets/a.png.cmeta")
             Demo2.candidate_a Demo2.disk _ (mkCompleted 0 "")); reflexivity.
  - apply (demo_entries_kept Demo.cfg Demo2.tree_ab Demo2.candidate_a Demo2.disk _
             (mkCompleted 0 "")); reflexivity.
  - constructor; [|constructor].
    exists (Some Demo2.candidate_b). split; [reflexivity|].
    intros c [= <-]. split; [exact demo_up_to_date_b | discriminate].
Defined.

Lemma output_is_never_a_source_witness :
  str (c_asset Demo2.candidate_a) <> str (c_output Demo2.candidate_b)
  /\ c_asset Demo2.candidate_a <> c_output Demo2.candidate_b
  /\ exists stem, name (c_output Demo2.candidate_b) = stem +:+ ".ktx2".
Proof.
  apply (@output_is_never_a_source _ Demo.working Demo2.tree_ab (cache_dir Demo.cfg)
           (parse "/proj/Assets/a.png.cmeta") (parse "/proj/Assets/b.png.cmeta"));
    reflexivity.
Defined.

Lemma absolute_guid_leaves_cache_witness :
  (starts_with_slash "ga" = true -> c_output Demo2.candidate_a = parse ("ga" +:+ ".ktx2"))
  /\ (starts_with_slash "ga" = false ->
      root (c_output Demo2.candidate_a) = root (cache_dir Demo.cfg)
      /\ exists tail, tail <> []
           /\ parts (c_output Demo2.candidate_a) = parts (cache_dir Demo.cfg) ++ tail).
Proof.
  apply (@absolute_guid_leaves_cache _ Demo.working Demo.cfg Demo2.tree_ab
           (parse "/proj/Assets/a.png.cmeta")); reflexivity.
Defined.

Lemma asset_path_strips_cmeta_witness :
  c_asset Demo2.candidate_a = mkPath "/" ["proj"; "Assets"; "a.png"]
  /\ name (c_asset Demo2.candidate_a) = "a.png".
Proof.
  apply (@asset_path_strips_cmeta _ Demo.working Demo2.tree_ab (cache_dir Demo.cfg)
           (parse "/proj/Assets/a.png.cmeta") Demo2.candidate_a "a.png");
    [reflexivity | reflexivity | discriminate].
Defined.

Lemma other_extension_excluded_witness :
  let st := mkState 0 0 Demo2.disk [] in
  @process_meta _ Demo.working Demo.cfg Demo2.tree_hdr (parse "/proj/Assets/sky.hdr.cmeta") st
    = Ok st
  /\ @scan_metas _ Demo.working Demo.cfg Demo2.tree_hdr
       [parse "/proj/Assets/sky.hdr.cmeta"] st
     = @scan_metas _ Demo.working Demo.cfg Demo2.tree_hdr [] st.
Proof.
  apply (@other_extension_excluded _ Demo.working Demo.cfg Demo2.tree_hdr
           (parse "/proj/Assets/sky.hdr.cmeta") (parse "/proj/Assets/sky.hdr") []
           (<["type" := JStr "texture"]> (<["guid" := JStr "gh"]>
              (<["import" := JStr "fast"]> ∅)))).
  - reflexivity.
  - reflexivity.
  - change (PyStr.lower (suffix (parse "/proj/Assets/sky.hdr"))) with ".hdr".
    unfold LDR_EXTS. intros Hin. set_unfold in Hin.
    repeat (destruct Hin as [Hin|Hin]; [|discriminate]). discriminate.
Defined.

Lemma present_setting_is_its_truthiness_witness :
  exists srgb normal_map flip_y generate_mips,
    import_settings
      (JObj (<["import" := JObj (<["texture" := JObj (<["srgb" := JNull]> ∅)]> ∅)]> ∅))
    = Ok (srgb, normal_map, flip_y, generate_mips)
    /\ (forall v, (<["srgb" := JNull]> ∅ : gmap string json) !! "srgb" = Some v ->
        srgb = truthy v)
    /\ (forall v, (<["srgb" := JNull]> ∅ : gmap string json) !! "normalMap" = Some v ->
        normal_map = truthy v)
    /\ (forall v, (<["srgb" := JNull]> ∅ : gmap string json) !! "flipY" = Some v ->
        flip_y = truthy v)
    /\ (forall v, (<["srgb" := JNull]> ∅ : gmap string json) !! "generateMipmaps" = Some v ->
        generate_mips = truthy v).
Proof.
  apply (present_setting_is_its_truthiness
           (<["import" := JObj (<["texture" := JObj (<["srgb" := JNull]> ∅)]> ∅)]> ∅)
           (<["texture" := JObj (<["srgb" := JNull]> ∅)]> ∅)
           (<["srgb" := JNull]> ∅)); reflexivity.
Defined.

(** A texture whose [srgb] is [null] is encoded as linear. *)
Example null_srgb_is_linear :
  import_settings
    (JObj (<["import" := JObj (<["texture" := JObj (<["srgb" := JNull]> ∅)]> ∅)]> ∅))
  = Ok (false, false, false, true).
Proof. reflexivity. Qed.

Lemma import_not_an_object_raises_witness :
  @scan_metas _ Demo.working Demo.cfg Demo2.tree_hdr
    [parse "/proj/Assets/a.png.cmeta"; parse "/proj/Assets/sky.hdr.cmeta"]
    (mkState 0 0 Demo2.disk [])
  = Raise AttributeError.
Proof.
  apply (@import_not_an_object_raises _ Demo.working Demo.cfg Demo2.tree_hdr
           (parse "/proj/Assets/a.png.cmeta") (parse "/proj/Assets/a.png")
           [parse "/proj/Assets/sky.hdr.cmeta"]
           (<["type" := JStr "texture"]> (<["guid" := JStr "ga"]>
              (<["import" := JStr "fast"]> ∅)))
           (JStr "ga") (JStr "fast")).
  - reflexivity.
  - reflexivity.
  - reflexivity.
  - reflexivity.
  - reflexivity.
  - change (PyStr.lower (suffix (parse "/proj/Assets/a.png"))) with ".png".
    unfold LDR_EXTS. set_unfold. tauto.
  - reflexivity.
  - discriminate.
  - left. reflexivity.
Defined.

Lemma build_command_injective_witness :
  str (parse "/opt/basisu") = str (parse "/opt//basisu")
  /\ str (parse "a.png") = str (parse "./a.png")
  /\ str (parse "o.ktx2") = str (parse "o.ktx2")
  /\ true = true /\ false = false /\ true = true /\ false = false.
Proof.
  apply (build_command_injective (parse "/opt/basisu") (parse "a.png") (parse "o.ktx2")
           (parse "/opt//basisu") (parse "./a.png") (parse "o.ktx2")
           true false true false true false true false).
  reflexivity.
Defined.

Lemma default_layout_witness :
  let h := DemoHost.host [] "/proj/Project.cproj" (Ok (JObj ∅)) in
  let w := [("/proj/Project.cproj", 2%Z)] in
  exists project_file,
    @find_project_file _ Demo.working h w (parse "/proj") = Ok project_file
    /\ project_file = mkPath "/" ["proj"; "Project.cproj"]
    /\ @resolve_paths _ h project_file (JObj ∅)
       = Done ([mkPath "/" ["proj"; "Assets"]], mkPath "/" ["proj"; "Library"])
    /\ cache_dir (mkConfig [mkPath "/" ["proj"; "Assets"]] (mkPath "/" ["proj"; "Library"])
                    (parse "/opt/basisu"))
       = mkPath "/" ["proj"; "Library"; "ImportCache"].
Proof.
  cbv zeta.
  apply (@default_layout _ Demo.working
           (DemoHost.host [] "/proj/Project.cproj" (Ok (JObj ∅)))
           [("/proj/Project.cproj", 2%Z)] (parse "/proj") (parse "/opt/basisu") ∅ false).
  - reflexivity.
  - reflexivity.
  - reflexivity.
  - left. reflexivity.
  - reflexivity.
Defined.

Lemma find_project_file_not_found_witness :
  @find_project_file _ Demo.working (DemoHost.host [] "/proj/Project.cproj" (Ok (JObj ∅)))
    [] (parse "/nowhere")
  = Ok (mkPath "" []).
Proof.
  apply (proj1 (@find_project_file_not_found _ Demo.working
                  (DemoHost.host [] "/proj/Project.cproj" (Ok (JObj ∅)))
                  [] (parse "/nowhere"))).
  exists false. repeat split.
Defined.

Lemma asset_paths_in_order_witness :
  let h := DemoHost.host [] "/proj/Project.cproj" (Ok (JObj Demo2.project_fields)) in
  @resolve_paths _ h (parse "/proj/Project.cproj") (JObj Demo2.project_fields)
  = Done ([parse "/proj/Assets"; parse "/shared/Textures"; parse "/proj/Extra/Art"],
          parse "/proj/Cache").
Proof.
  cbv zeta.
  apply (proj1 (@asset_paths_in_order _
                  (DemoHost.host [] "/proj/Project.cproj" (Ok (JObj Demo2.project_fields)))
                  (parse "/proj/Project.cproj") Demo2.project_fields
                  ["Assets"; "/shared/Textures"; "Extra/Art"] "Cache"
                  eq_refl ltac:(discriminate) eq_refl)).
Defined.

Lemma asset_paths_string_is_split_witness :
  let h := DemoHost.host [] "/proj/Project.cproj" (Ok (JObj ∅)) in
  exists dirs,
    @resolve_paths _ h (parse "/proj/Project.cproj")
      (JObj (<["assetPaths" := JStr "Art"]> ∅))
    = Done (dirs, parse "/proj/Library")
    /\ dirs = [parse "/proj/A"; parse "/proj/r"; parse "/proj/t"]
    /\ (Forall (fun c => PyText.is_continuation c = false) (list_ascii_of_string "Art") ->
        length dirs = 3).
Proof.
  cbv zeta.
  apply (@asset_paths_string_is_split _
           (DemoHost.host [] "/proj/Project.cproj" (Ok (JObj ∅)))
           (parse "/proj/Project.cproj") (<["assetPaths" := JStr "Art"]> ∅) "Art");
    [reflexivity | discriminate | reflexivity].
Defined.

Lemma default_encoder_path_witness :
  @basisu_path_from_script _ (DemoHost.host [] "/proj/Project.cproj" (Ok (JObj ∅)))
  = mkPath "/" ["engine"; "ThirdParty"; "basisu"; "basisu"].
Proof.
  apply (@default_encoder_path _
           (DemoHost.host [] "/proj/Project.cproj" (Ok (JObj ∅)))
           ["engine"] "scripts" "encode_textures.py").
  reflexivity.
Defined.

Lemma missing_project_is_not_reported_witness :
  @Cli.main _ Demo.working (DemoHost.host [] "/proj/Project.cproj" (Ok (JObj ∅)))
    (mkArgs "/nowhere" "") Demo.tree_a []
  = Failed (Exn OSError).
Proof.
  apply (proj1 (@missing_project_is_not_reported _ Demo.working
                  (DemoHost.host [] "/proj/Project.cproj" (Ok (JObj ∅)))
                  (mkArgs "/nowhere" "") Demo.tree_a [])); reflexivity.
Defined.

(** The whole script on scenario A, from the command line on. *)
Example cli_scenario_a :
  exists st,
    @Cli.main _ Demo.working (DemoHost.host [] "/proj/Project.cproj" (Ok (JObj ∅)))
      (mkArgs "/proj" "/opt/basisu") Demo.tree_a
      (("/proj/Project.cproj", 2%Z) :: Demo.disk_a)
    = Done (0%Z, st)
    /\ encoded st = 1.
Proof. eexists. split; [vm_compute; reflexivity | reflexivity]. Qed.
